(** * tasmota_tool: discovery, provisioning and telemetry validation

    A shallow embedding of [tasmota_tool.py] and the properties of its
    payload validator, prober, discovery loop, configurator, telemetry
    handler and report builder.

    Python values that reach the tool (decoded JSON, command responses) are
    an inductive type; dictionaries keep their insertion order; a call that
    can raise returns an [outcome]; code that talks to the network threads
    an explicit system state through a state-and-exception monad. *)

From Stdlib Require Import ZArith Ascii String List Bool Lia Sorted Permutation.
From Stdlib Require Import Strings.Byte Floats.PrimFloat Structures.OrderedTypeEx.
From stdpp Require Import base option list gmap strings sorting pretty.

Set Warnings "-register-all".
Set Default Proof Using "Type".
Local Open Scope string_scope.
Local Open Scope list_scope.

(** ** Python values *)

Module Py.

(** The values [json.loads] and [Response.json] produce.  A [dict] is kept
    as its items in insertion order (keys are distinct in every dict Python
    builds). *)
Inductive value : Type :=
  | VNone
  | VBool (b : bool)
  | VInt (n : Z)
  | VFloat (x : float)
  | VStr (s : string)
  | VList (items : list value)
  | VDict (items : list (string * value)).

Abbreviation dict := (list (string * value)).

(** The exceptions the tool can meet; all of them derive from [Exception]. *)
Inductive exn : Type :=
  | AttributeError (msg : string)
  | RequestException (msg : string)
  | JSONDecodeError (msg : string)
  | OSError (msg : string).

(** [str(e)] *)
Definition exn_str (e : exn) : string :=
  match e with
  | AttributeError m | RequestException m | JSONDecodeError m | OSError m => m
  end.

Inductive outcome (A : Type) : Type :=
  | Returns (a : A)
  | Raises (e : exn).
Arguments Returns {A} a.
Arguments Raises {A} e.

Definition obind {A B} (o : outcome A) (k : A -> outcome B) : outcome B :=
  match o with
  | Returns a => k a
  | Raises e => Raises e
  end.

Definition returned {A} (o : outcome A) : option A :=
  match o with Returns a => Some a | Raises _ => None end.

(** [type(v).__name__] *)
Definition type_name (v : value) : string :=
  match v with
  | VNone => "NoneType"
  | VBool _ => "bool"
  | VInt _ => "int"
  | VFloat _ => "float"
  | VStr _ => "str"
  | VList _ => "list"
  | VDict _ => "dict"
  end.

Definition is_dict (v : value) : bool :=
  match v with VDict _ => true | _ => false end.

(** [d[k]] when present: the first (and, in a Python dict, only) item. *)
Fixpoint dict_lookup (k : string) (d : dict) : option value :=
  match d with
  | [] => None
  | (k', v) :: d' => if String.eqb k k' then Some v else dict_lookup k d'
  end.

(** [k in d] *)
Definition dict_has (k : string) (d : dict) : bool :=
  match dict_lookup k d with Some _ => true | None => false end.

(** [d[k] = v]: replaces the value in place, or appends a new item. *)
Fixpoint dict_set (k : string) (v : value) (d : dict) : dict :=
  match d with
  | [] => [(k, v)]
  | (k', v') :: d' =>
      if String.eqb k k' then (k', v) :: d' else (k', v') :: dict_set k v d'
  end.

(** [o.get(k, default)]: only a [dict] has the method. *)
Definition get (o : value) (k : string) (default : value) : outcome value :=
  match o with
  | VDict d => Returns (match dict_lookup k d with Some v => v | None => default end)
  | _ => Raises (AttributeError
                   ("'" +:+ type_name o +:+ "' object has no attribute 'get'"))
  end.

(** [isinstance(v, (int, float))]; [bool] is a subclass of [int]. *)
Definition isinstance_int_float (v : value) : bool :=
  match v with
  | VInt _ | VFloat _ | VBool _ => true
  | _ => false
  end.

(** Truth value of an optional string argument ([None] and the empty string are false). *)
Definition truthy (s : option string) : bool :=
  match s with
  | Some s => negb (String.eqb s EmptyString)
  | None => false
  end.

(** [str(s)] inside an f-string. *)
Definition fmt (s : option string) : string :=
  match s with Some s => s | None => "None" end.

End Py.
Export Py.

Global Instance outcome_ret : MRet outcome := @Returns.
Global Instance outcome_bind : MBind outcome := fun A B k o => obind o k.

(** ** Data model *)

(** [{"ip": ..., "hostname": ..., "topic": ...}]; hostname and topic are
    whatever the device answered. *)
Module Device.
Record t := { ip : string; hostname : value; topic : value }.
End Device.

(** [{"ts": ..., "valid": ..., "errors": ..., "payload": ...}]; the payload
    key is missing from the record of a message that did not parse. *)
Module ValidationRecord.
Record t := {
  ts : string;
  valid : bool;
  errors : list string;
  payload : option value;
}.
End ValidationRecord.

Module Summary.
Record t := {
  devices_found : Z;
  messages_received : Z;
  valid : Z;
  invalid : Z;
  pass : bool;
}.
End Summary.

Module Report.
Record t := {
  generated_at : string;
  summary : Summary.t;
  devices : list Device.t;
  configuration : dict;
  validation : list ValidationRecord.t;
}.
End Report.

(** What [requests.get(url, params=params, timeout=timeout)] is called with. *)
Record Request := {
  url : string;
  params : dict;
  timeout : Z;
}.

(** ** Interfaces to what lies outside the repository *)

(** Built-ins of the language whose text output the tool only passes on:
    [repr(v)] and [json.loads(raw)]. *)
Class Builtins := {
  repr : value -> string;
  json_loads : string -> outcome value;
}.

(** The network, the clock and the file system, as a state [W] the tool acts
    on.
    - [requests_get]: [requests.get], [raise_for_status] and [Response.json];
    - [zeroconf_browse]: what [get_service_info] gave at each [add_service]
      call-back of the scan, in call-back order ([None], or the packed
      addresses of the service);
    - [utcnow_isoformat]: [datetime.now(timezone.utc).isoformat()];
    - [json_dump_to]: [open(path, "w")] followed by [json.dump];
    - [mqtt_connect]: [Client.connect] and the result code handed to
      [on_connect];
    - [mqtt_deliver]: the raw payloads delivered to [on_message] during the
      listen window, in arrival order, given the topics subscribed to. *)
Class World (W : Type) := {
  requests_get : Request -> W -> outcome value * W;
  zeroconf_browse : float -> W -> list (option (list (list Byte.byte))) * W;
  utcnow_isoformat : W -> string * W;
  json_dump_to : string -> Report.t -> W -> outcome unit * W;
  mqtt_connect : string -> Z -> option string -> option string -> W -> outcome Z * W;
  mqtt_deliver : list string -> float -> W -> list string * W;
}.

(** ** Stateful code: state passing with exceptions *)

(** A computation over a state [S] that returns or raises; the state it
    leaves behind is kept in both cases. *)
Definition M (S A : Type) : Type := S -> outcome A * S.

Global Instance M_ret {S} : MRet (M S) := fun A a s => (Returns a, s).
Global Instance M_bind {S} : MBind (M S) := fun A B k m s =>
  match m s with
  | (Returns a, s') => k a s'
  | (Raises e, s') => (Raises e, s')
  end.

(** [try: body  except Exception as e: handler(e)] *)
Definition try_except {S A} (body : M S A) (handler : exn -> M S A) : M S A :=
  fun s =>
    match body s with
    | (Returns a, s') => (Returns a, s')
    | (Raises e, s') => handler e s'
    end.

Definition lift_outcome {S A} (o : outcome A) : M S A := fun s => (o, s).

Definition gets {S A} (f : S -> A) : M S A := fun s => (Returns (f s), s).
Definition modify {S} (f : S -> S) : M S unit := fun s => (Returns tt, f s).

(** Runs a computation on a component of a larger state. *)
Definition zoom {S T A} (proj : T -> S) (upd : S -> T -> T) (m : M S A) : M T A :=
  fun t => let '(o, s') := m (proj t) in (o, upd s' t).

(** A [for] loop over a list; the loop-carried variables are [s]. *)
Fixpoint for_each {F : Type -> Type} `{MBind F, MRet F} {S A}
    (body : S -> A -> F S) (l : list A) (s : S) : F S :=
  match l with
  | [] => mret s
  | a :: l' => s' ← body s a; for_each body l' s'
  end.

(** The system the tool runs against: the outside world and the requests
    sent so far, oldest first. *)
Record Sys (W : Type) := { ext : W; sent : list Request }.
Arguments ext {W} _.
Arguments sent {W} _.

Section Tool.
Context `{Builtins} {W : Type} `{World W}.

(** ** 1. Discovery *)

(** [socket.inet_ntoa]: the dotted-decimal text of a packed address (called
    on four-byte addresses only). *)
Fixpoint dotted (octets : list Byte.byte) : string :=
  match octets with
  | [] => EmptyString
  | [b] => pretty (Byte.to_N b)
  | b :: rest => pretty (Byte.to_N b) +:+ "." +:+ dotted rest
  end.

Definition inet_ntoa (addr : list Byte.byte) : string := dotted addr.

(** [TasmotaListener.add_service]; [ips] is the listener's set. *)
Definition add_service (ips : gset string) (info : option (list (list Byte.byte)))
  : gset string :=
  match info with
  | None => ips
  | Some addresses =>
      fold_left
        (fun ips addr =>
           if (length addr =? 4)%nat then ips ∪ {[ inet_ntoa addr ]} else ips)
        addresses ips
  end.

(** [<=] on [str]: lexicographic on code points. *)
Definition str_le (s1 s2 : string) : Prop := String.leb s1 s2 = true.

Global Instance str_le_dec : RelDecision str_le.
Proof. intros s1 s2. unfold str_le. apply _. Defined.

(** [sorted(s)] for a set of strings. *)
Definition sorted (s : gset string) : list string :=
  merge_sort str_le (elements s).

Definition requests_get_sys (req : Request) : M (Sys W) value :=
  fun s =>
    let '(o, w') := requests_get req (ext s) in
    (o, {| ext := w'; sent := sent s ++ [req] |}).

(** The request [http_get_json] builds: the address and path, and the
    parameters with the WebUI credentials added when both are set. *)
Definition http_request (ip path : string) (params : dict) (timeout : Z)
    (web_user web_pass : option string) : Request :=
  let url := "http://" +:+ ip +:+ path in
  let params :=
    if truthy web_user && truthy web_pass
    then dict_set "password" (VStr (fmt web_pass))
           (dict_set "user" (VStr (fmt web_user)) params)
    else params in
  {| url := url; params := params; timeout := timeout |}.

Definition http_get_json (ip path : string) (params : dict) (timeout : Z)
    (web_user web_pass : option string) : M (Sys W) value :=
  requests_get_sys (http_request ip path params timeout web_user web_pass).

(** The request [probe_tasmota] sends. *)
Definition status_request (ip : string) (web_user web_pass : option string)
  : Request :=
  http_request ip "/cm" [("cmnd", VStr "Status 0")] 2 web_user web_pass.

Definition probe_tasmota (ip : string) (web_user web_pass : option string)
  : M (Sys W) (option Device.t) :=
  try_except
    (data ← http_get_json ip "/cm" [("cmnd", VStr "Status 0")] 2 web_user web_pass;
     match data with
     | VDict d =>
         if negb (dict_has "StatusNET" d) || negb (dict_has "Status" d)
         then mret None
         else
           net ← lift_outcome (get data "StatusNET" (VDict []));
           host ← lift_outcome (get net "Hostname" (VStr ip));
           st ← lift_outcome (get data "Status" (VDict []));
           topic ← lift_outcome (get st "Topic" VNone);
           mret (Some {| Device.ip := ip; Device.hostname := host;
                         Device.topic := topic |})
     | _ => mret None
     end)
    (fun _ => mret None).

(** The body of the loop of [discover]. *)
Definition probe_step (web_user web_pass : option string)
    (devices : list Device.t) (ip : string) : M (Sys W) (list Device.t) :=
  dev ← probe_tasmota ip web_user web_pass;
  mret (match dev with
        | Some d => devices ++ [d]
        | None => devices
        end).

(** The probing loop of [discover], from the listener's set on. *)
Definition probe_candidates (ips : gset string) (web_user web_pass : option string)
  : M (Sys W) (list Device.t) :=
  let devices := [] in
  for_each (probe_step web_user web_pass) (sorted ips) devices.

(** Runs a call on the outside world from inside the tool. *)
Definition world_call {A} (f : W -> A * W) : M (Sys W) A :=
  fun s => let '(a, w') := f (ext s) in (Returns a, {| ext := w'; sent := sent s |}).

Definition world_try {A} (f : W -> outcome A * W) : M (Sys W) A :=
  fun s => let '(o, w') := f (ext s) in (o, {| ext := w'; sent := sent s |}).

Definition discover (timeout : float) (web_user web_pass : option string)
  : M (Sys W) (list Device.t) :=
  found ← world_call (zeroconf_browse timeout);
  let listener_ips := fold_left add_service found ∅ in
  probe_candidates listener_ips web_user web_pass.

(** ** 2. Configuration *)

Definition cmd (ip command : string) (web_user web_pass : option string)
  : M (Sys W) value :=
  http_get_json ip "/cm" [("cmnd", VStr command)] 6 web_user web_pass.

(** The frame of a call of [configure]: the system and the local [res]. *)
Record ConfigureFrame := { cf_sys : Sys W; res : dict }.

Definition in_sys {A} (m : M (Sys W) A) : M ConfigureFrame A :=
  zoom cf_sys (fun s f => {| cf_sys := s; res := res f |}) m.

(** [res[k] = v] *)
Definition res_set (k : string) (v : value) : M ConfigureFrame unit :=
  modify (fun f => {| cf_sys := cf_sys f; res := dict_set k v (res f) |}).

(** [res[k] = call]: the call is evaluated first, then stored. *)
Definition res_store (k : string) (call : M (Sys W) value) : M ConfigureFrame unit :=
  r ← in_sys call; res_set k r.

Definition when {S} (b : bool) (m : M S unit) : M S unit :=
  if b then m else mret tt.

(** The first part of the body of [configure]: [res = {}] and the commands,
    each stored under its name. *)
Definition configure_commands (ip ssid wifi_pass mqtt_host : string) (mqtt_port : Z)
    (mqtt_user mqtt_pass topic web_user web_pass : option string)
  : M ConfigureFrame unit :=
  modify (fun f => {| cf_sys := cf_sys f; res := [] |});;
  res_store "SSID1" (cmd ip ("SSID1 " +:+ ssid) web_user web_pass);;
  res_store "Password1" (cmd ip ("Password1 " +:+ wifi_pass) web_user web_pass);;
  res_store "MqttHost" (cmd ip ("MqttHost " +:+ mqtt_host) web_user web_pass);;
  res_store "MqttPort" (cmd ip ("MqttPort " +:+ pretty mqtt_port) web_user web_pass);;
  when (truthy mqtt_user)
    (res_store "MqttUser" (cmd ip ("MqttUser " +:+ fmt mqtt_user) web_user web_pass));;
  when (truthy mqtt_pass)
    (res_store "MqttPassword"
       (cmd ip ("MqttPassword " +:+ fmt mqtt_pass) web_user web_pass));;
  when (truthy topic)
    (res_store "Topic" (cmd ip ("Topic " +:+ fmt topic) web_user web_pass));;
  res_store "TelePeriod" (cmd ip "TelePeriod 10" web_user web_pass).

(** The second part: the secrets are redacted and [res] is returned. *)
Definition configure_redact : M ConfigureFrame dict :=
  res_set "Password1" (VStr "***");;
  has ← gets (fun f => dict_has "MqttPassword" (res f));
  when has (res_set "MqttPassword" (VStr "***"));;
  gets res.

(** The body of [configure], run in its frame. *)
Definition configure_body (ip ssid wifi_pass mqtt_host : string) (mqtt_port : Z)
    (mqtt_user mqtt_pass topic web_user web_pass : option string)
  : M ConfigureFrame dict :=
  configure_commands ip ssid wifi_pass mqtt_host mqtt_port
    mqtt_user mqtt_pass topic web_user web_pass;;
  configure_redact.

(** The frame [configure] starts in. *)
Definition configure_frame (s : Sys W) : ConfigureFrame :=
  {| cf_sys := s; res := [] |}.

Definition configure (ip ssid wifi_pass mqtt_host : string) (mqtt_port : Z)
    (mqtt_user mqtt_pass topic web_user web_pass : option string)
  : M (Sys W) dict :=
  fun s =>
    let '(o, f) :=
      configure_body ip ssid wifi_pass mqtt_host mqtt_port
        mqtt_user mqtt_pass topic web_user web_pass (configure_frame s) in
    (o, cf_sys f).

(** ** 3. Validation *)

Definition REQUIRED_KEYS : list string := ["Temperature"; "Humidity"; "Pressure"].

(** The body of the loop of [validate_payload], for key [k]. *)
Definition check_key (cs : value) (errors : list string) (k : string)
  : outcome (list string) :=
  v ← get cs k VNone;
  match v with
  | VNone => Returns (errors ++ ["Missing '" +:+ k +:+ "'"])
  | _ =>
      if negb (isinstance_int_float v)
      then Returns (errors ++ ["'" +:+ k +:+ "' not numeric: " +:+ repr v])
      else Returns errors
  end.

Definition validate_payload (payload : value) : outcome (list string) :=
  let errors := [] in
  cs ← get payload "CustomSensor" VNone;
  match cs with
  | VNone => Returns ["Missing 'CustomSensor' key"]
  | _ => for_each (check_key cs) REQUIRED_KEYS errors
  end.

(** The frame of a call of [subscribe_and_validate]: the system, the list
    [results] its handlers close over, and the client's subscriptions. *)
Record ListenFrame := {
  lf_sys : Sys W;
  results : list ValidationRecord.t;
  subscriptions : list string;
}.

Definition listening {A} (m : M (Sys W) A) : M ListenFrame A :=
  zoom lf_sys
    (fun s f => {| lf_sys := s; results := results f;
                   subscriptions := subscriptions f |}) m.

(** [results.append(r)] *)
Definition results_append (r : ValidationRecord.t) : M ListenFrame unit :=
  modify (fun f => {| lf_sys := lf_sys f; results := results f ++ [r];
                      subscriptions := subscriptions f |}).

Definition on_connect (sub_topic : string) (rc : Z) : M ListenFrame unit :=
  when (rc =? 0)%Z
    (modify (fun f => {| lf_sys := lf_sys f; results := results f;
                         subscriptions := subscriptions f ++ [sub_topic] |})).

Definition on_message (raw : string) : M ListenFrame unit :=
  ts ← listening (world_call utcnow_isoformat);
  parsed ← try_except
    (payload ← lift_outcome (json_loads raw); mret (Some payload))
    (fun e =>
       results_append {| ValidationRecord.ts := ts;
                         ValidationRecord.valid := false;
                         ValidationRecord.errors := [exn_str e];
                         ValidationRecord.payload := None |};;
       mret None);
  match parsed with
  | None => mret tt
  | Some payload =>
      errs ← lift_outcome (validate_payload payload);
      results_append {| ValidationRecord.ts := ts;
                        ValidationRecord.valid := (length errs =? 0)%nat;
                        ValidationRecord.errors := errs;
                        ValidationRecord.payload := Some payload |}
  end.

Definition sub_topic_of (topic : option string) : string :=
  "tele/" +:+ fmt topic +:+ "/SENSOR".

(** The body of [subscribe_and_validate], run in its frame.  The handlers run
    on the client's delivery thread, one message at a time; a handler that
    raises ends that thread, and the caller still returns [results]. *)
Definition subscribe_and_validate_body (mqtt_host : string) (mqtt_port : Z)
    (topic : option string) (duration : float) (mqtt_user mqtt_pass : option string)
  : M ListenFrame (list ValidationRecord.t) :=
  let sub_topic := sub_topic_of topic in
  let '(user, password) :=
    if truthy mqtt_user then (mqtt_user, mqtt_pass) else (None, None) in
  rc ← listening (world_try (mqtt_connect mqtt_host mqtt_port user password));
  on_connect sub_topic rc;;
  subs ← gets subscriptions;
  msgs ← listening (world_call (mqtt_deliver subs duration));
  try_except
    (for_each (fun _ raw => on_message raw) msgs tt)
    (fun _ => mret tt);;
  gets results.

Definition subscribe_and_validate (mqtt_host : string) (mqtt_port : Z)
    (topic : option string) (duration : float) (mqtt_user mqtt_pass : option string)
  : M (Sys W) (list ValidationRecord.t) :=
  fun s =>
    let '(o, f) :=
      subscribe_and_validate_body mqtt_host mqtt_port topic duration
        mqtt_user mqtt_pass
        {| lf_sys := s; results := []; subscriptions := [] |} in
    (o, lf_sys f).

(** ** 4. Report *)

(** [sum(...)] of integers. *)
Definition py_sum (l : list Z) : Z := fold_left Z.add l 0%Z.

(** [len(l)] *)
Definition len {A} (l : list A) : Z := Z.of_nat (length l).

Definition generate_report (devices : list Device.t) (config_res : dict)
    (validation : list ValidationRecord.t) (path : string)
  : M (Sys W) Report.t :=
  let passed :=
    py_sum (map (fun _ => 1%Z) (List.filter ValidationRecord.valid validation)) in
  now ← world_call utcnow_isoformat;
  let report := {|
    Report.generated_at := now;
    Report.summary := {|
      Summary.devices_found := len devices;
      Summary.messages_received := len validation;
      Summary.valid := passed;
      Summary.invalid := (len validation - passed)%Z;
      Summary.pass := (0 <? passed)%Z && (passed =? len validation)%Z;
    |};
    Report.devices := devices;
    Report.configuration := config_res;
    Report.validation := validation;
  |} in
  world_try (json_dump_to path report);;
  mret report.

(** ** Vocabulary of the properties *)

(** The two sections of a well-formed answer to the status query: the answer
    is a dict whose "StatusNET" and "Status" entries are dicts. *)
Definition status_sections (v : value) : option (dict * dict) :=
  match v with
  | VDict d =>
      match dict_lookup "StatusNET" d, dict_lookup "Status" d with
      | Some (VDict net), Some (VDict st) => Some (net, st)
      | _, _ => None
      end
  | _ => None
  end.

(** Probing the addresses of a list one after the other, each probe starting
    in the state the one before left: the results, in the order probed. *)
Inductive probed (web_user web_pass : option string)
  : list string -> Sys W -> list (option Device.t) -> Sys W -> Prop :=
  | probed_nil s : probed web_user web_pass [] s [] s
  | probed_cons ip ips s r s1 rs s2 :
      probe_tasmota ip web_user web_pass s = (Returns r, s1) ->
      probed web_user web_pass ips s1 rs s2 ->
      probed web_user web_pass (ip :: ips) s (r :: rs) s2.

(** The number a packed address stands for (network byte order): the order
    of addresses as numbers. *)
Definition addr_value (addr : list Byte.byte) : N :=
  fold_left (fun acc b => (acc * 256 + Byte.to_N b)%N) addr 0%N.

(** The request [cmd] sends for a command. *)
Definition command_request (ip command : string) (web_user web_pass : option string)
  : Request :=
  http_request ip "/cm" [("cmnd", VStr command)] 6 web_user web_pass.

(** The answers of the outside world to a list of requests sent one after
    the other. *)
Fixpoint answers (reqs : list Request) (w : W) : list (outcome value) * W :=
  match reqs with
  | [] => ([], w)
  | req :: rest =>
      let '(o, w1) := requests_get req w in
      let '(os, w2) := answers rest w1 in
      (o :: os, w2)
  end.

(** The commands of a configuration, as name and command text, in the order
    the specification lists them; the three optional ones are there when
    their argument is provided. *)
Definition commands (ssid wifi_pass mqtt_host : string) (mqtt_port : Z)
    (mqtt_user mqtt_pass topic : option string) : list (string * string) :=
  [ ("SSID1", "SSID1 " +:+ ssid);
    ("Password1", "Password1 " +:+ wifi_pass);
    ("MqttHost", "MqttHost " +:+ mqtt_host);
    ("MqttPort", "MqttPort " +:+ pretty mqtt_port) ]
  ++ (if truthy mqtt_user then [("MqttUser", "MqttUser " +:+ fmt mqtt_user)] else [])
  ++ (if truthy mqtt_pass then [("MqttPassword", "MqttPassword " +:+ fmt mqtt_pass)] else [])
  ++ (if truthy topic then [("Topic", "Topic " +:+ fmt topic)] else [])
  ++ [ ("TelePeriod", "TelePeriod 10") ].

(** Sending a list of named commands, each answer stored under its name. *)
Fixpoint store_all (ip : string) (web_user web_pass : option string)
    (cmds : list (string * string)) : M ConfigureFrame unit :=
  match cmds with
  | [] => mret tt
  | (k, c) :: rest =>
      match rest with
      | [] => res_store k (cmd ip c web_user web_pass)
      | _ => res_store k (cmd ip c web_user web_pass);;
             store_all ip web_user web_pass rest
      end
  end.

(** The dict [configure_redact] leaves and returns. *)
Definition redacted (d : dict) : dict :=
  let d1 := dict_set "Password1" (VStr "***") d in
  if dict_has "MqttPassword" d1 then dict_set "MqttPassword" (VStr "***") d1 else d1.

(** The entry of a secret-bearing command. *)
Definition secret_key (k : string) : bool :=
  String.eqb k "Password1" || String.eqb k "MqttPassword".

(** The frame after the handler has read the clock and appended [records]. *)
Definition after_message (f : ListenFrame) (records : list ValidationRecord.t)
  : ListenFrame :=
  {| lf_sys := {| ext := (utcnow_isoformat (ext (lf_sys f))).2;
                  sent := sent (lf_sys f) |};
     results := results f ++ records;
     subscriptions := subscriptions f |}.

Definition message_time (f : ListenFrame) : string :=
  (utcnow_isoformat (ext (lf_sys f))).1.

(** What one required field of the section [cs] contributes to the error
    list of [validate_payload]. *)
Inductive field_errors (cs : dict) (k : string) : list string -> Prop :=
  | field_absent :
      dict_lookup k cs = None ->
      field_errors cs k ["Missing '" +:+ k +:+ "'"]
  | field_null :
      dict_lookup k cs = Some VNone ->
      field_errors cs k ["Missing '" +:+ k +:+ "'"]
  | field_wrong_type v :
      dict_lookup k cs = Some v -> v <> VNone -> isinstance_int_float v = false ->
      field_errors cs k ["'" +:+ k +:+ "' not numeric: " +:+ repr v]
  | field_numeric v :
      dict_lookup k cs = Some v -> isinstance_int_float v = true ->
      field_errors cs k [].

(** A field is fine when it is present and passes the type check. *)
Definition field_ok (cs : dict) (k : string) : Prop :=
  exists v, dict_lookup k cs = Some v /\ isinstance_int_float v = true.

(** The error strings the field-level checks can produce. *)
Definition field_level_error (e : string) : Prop :=
  exists k, k ∈ REQUIRED_KEYS /\
    (e = "Missing '" +:+ k +:+ "'" \/
     exists v, e = "'" +:+ k +:+ "' not numeric: " +:+ repr v).

End Tool.

(** ** 5. Waiting for the device, and the command line *)

(** The wall clock: [time.time()] and [time.sleep(seconds)]. *)
Class Clock (W : Type) := {
  time_time : W -> float * W;
  time_sleep : float -> W -> W;
}.

(** The parsed command line ([argparse]); the defaults are [argparse]'s to
    fill in. *)
Module Args.
Record t := {
  device_ip : option string;
  web_user : option string;
  web_pass : option string;
  ssid : string;
  wifi_pass : string;
  mqtt_host : string;
  mqtt_port : Z;
  mqtt_user : string;
  mqtt_pass : string;
  mqtt_topic : option string;
  duration : float;
  output : string;
  mdns_timeout : float;
}.
End Args.

Section Orchestration.
Context `{Builtins} {W : Type} `{World W} `{Clock W}.

(** The loop of [wait_for_device].  [fuel] bounds the number of turns the
    embedding follows; the result is [None] when the loop is still running
    after that many turns. *)
Fixpoint wait_loop (fuel : nat) (ip : string) (deadline : float)
    (web_user web_pass : option string) : M (Sys W) (option bool) :=
  match fuel with
  | O => mret None
  | S fuel' =>
      t ← world_call time_time;
      if PrimFloat.ltb t deadline then
        dev ← probe_tasmota ip web_user web_pass;
        match dev with
        | Some _ => mret (Some true)
        | None =>
            world_call (fun w => (tt, time_sleep 1%float w));;
            wait_loop fuel' ip deadline web_user web_pass
        end
      else mret (Some false)
  end.

Definition wait_for_device (fuel : nat) (ip : string) (timeout : float)
    (web_user web_pass : option string) : M (Sys W) (option bool) :=
  now ← world_call time_time;
  let deadline := PrimFloat.add now timeout in
  wait_loop fuel ip deadline web_user web_pass.

(** Truth value of a value: [None], [False], zero, and the empty string,
    list and dict are false. *)
Definition value_truthy (v : value) : bool :=
  match v with
  | VNone => false
  | VBool b => b
  | VInt n => negb (n =? 0)%Z
  | VFloat x => negb (PrimFloat.eqb x 0%float)
  | VStr s => negb (String.eqb s EmptyString)
  | VList items => match items with [] => false | _ => true end
  | VDict items => match items with [] => false | _ => true end
  end.

(** [str(v)], as an f-string renders a value: a string is itself, any other
    value prints as its [repr]. *)
Definition py_str (v : value) : string :=
  match v with
  | VStr s => s
  | _ => repr v
  end.

(** [args.mqtt_topic or devices[0].get("topic")] *)
Definition resolve_topic (mqtt_topic : option string) (first : Device.t) : value :=
  if truthy mqtt_topic then VStr (fmt mqtt_topic) else Device.topic first.

(** The steps of [main] after the topic is known.  The topic reaches
    [configure] and [subscribe_and_validate] as the text their f-strings
    render, [str(topic)]; the test [if topic:] of [configure] is made on
    that text, which is not empty for a true value (a non-empty string, or
    the [repr] of another value, which Python never leaves empty). *)
Definition provision (fuel : nat) (args : Args.t) (devices : list Device.t)
    (first : Device.t) (topic : value) : M (Sys W) (option unit) :=
  let target := Device.ip first in
  config_res ← configure target (Args.ssid args) (Args.wifi_pass args)
                  (Args.mqtt_host args) (Args.mqtt_port args)
                  (Some (Args.mqtt_user args)) (Some (Args.mqtt_pass args))
                  (Some (py_str topic)) (Args.web_user args) (Args.web_pass args);
  back ← wait_for_device fuel target 30%float (Args.web_user args) (Args.web_pass args);
  match back with
  | None => mret None
  | Some _ =>
      validation ← subscribe_and_validate (Args.mqtt_host args) (Args.mqtt_port args)
                     (Some (py_str topic)) (Args.duration args)
                     (Some (Args.mqtt_user args)) (Some (Args.mqtt_pass args));
      generate_report devices config_res validation (Args.output args);;
      mret (Some tt)
  end.

(** The first step of [main]: the devices to work on. *)
Definition find_devices (args : Args.t) : M (Sys W) (list Device.t) :=
  if truthy (Args.device_ip args) then
    dev ← probe_tasmota (fmt (Args.device_ip args))
            (Args.web_user args) (Args.web_pass args);
    mret (match dev with Some d => [d] | None => [] end)
  else
    discover (Args.mdns_timeout args) (Args.web_user args) (Args.web_pass args).

(** [main], from the parsed arguments on; [None] when the waiting loop is
    still running after [fuel] turns. *)
Definition main (fuel : nat) (args : Args.t) : M (Sys W) (option unit) :=
  devices ← find_devices args;
  match devices with
  | [] => mret (Some tt)
  | first :: _ =>
      let topic := resolve_topic (Args.mqtt_topic args) first in
      if negb (value_truthy topic) then mret (Some tt)
      else provision fuel args devices first topic
  end.

End Orchestration.

(** No character of the string is a dot. *)
Fixpoint dotless (s : string) : bool :=
  match s with
  | EmptyString => true
  | String a rest => negb (Ascii.eqb a "."%char) && dotless rest
  end.

(** An entry as [configure] returns it: the marker in place of the answer to
    a secret-bearing command. *)
Definition masked (kv : string * value) : string * value :=
  if secret_key kv.1 then (kv.1, VStr "***") else kv.

(** The WebUI credentials as request parameters: both or none. *)
Definition credentials (web_user web_pass : option string) : dict :=
  if truthy web_user && truthy web_pass
  then [("user", VStr (fmt web_user)); ("password", VStr (fmt web_pass))]
  else [].

Section TelemetryVocabulary.
Context `{Builtins}.

(** The record of a message received at time [ts]: none when the message
    parses and the validator raises on its payload. *)
Definition record_of (ts raw : string) : option ValidationRecord.t :=
  match json_loads raw with
  | Raises e =>
      Some {| ValidationRecord.ts := ts; ValidationRecord.valid := false;
              ValidationRecord.errors := [exn_str e];
              ValidationRecord.payload := None |}
  | Returns payload =>
      match validate_payload payload with
      | Returns errs =>
          Some {| ValidationRecord.ts := ts;
                  ValidationRecord.valid := bool_decide (errs = []);
                  ValidationRecord.errors := errs;
                  ValidationRecord.payload := Some payload |}
      | Raises _ => None
      end
  end.

(** A message the handler gets through: it does not parse, or the validator
    returns on its payload. *)
Definition handled (raw : string) : Prop :=
  match json_loads raw with
  | Raises _ => True
  | Returns payload => exists errs, validate_payload payload = Returns errs
  end.

End TelemetryVocabulary.

(** ** Sample instances, for closed examples *)

(** A [repr] that is Python's on [None], booleans, integers and strings
    without quotes, backslashes or control characters; the examples use no
    other value. *)
Definition sample_repr (v : value) : string :=
  match v with
  | VNone => "None"
  | VBool true => "True"
  | VBool false => "False"
  | VInt n => pretty n
  | VStr s => "'" +:+ s +:+ "'"
  | _ => "..."
  end.

(** A [json.loads] given by the table of the texts it decodes; any other
    text is rejected the way Python rejects an empty document or a bare
    word. *)
Definition sample_loads (table : list (string * value)) (raw : string)
  : outcome value :=
  match dict_lookup raw table with
  | Some v => Returns v
  | None => Raises (JSONDecodeError "Expecting value: line 1 column 1 (char 0)")
  end.

(** The one-character string holding a double quote. *)
Definition dquote : string := String (Ascii.ascii_of_nat 34) EmptyString.

(** A JSON string literal without escapes. *)
Definition quoted (s : string) : string := dquote +:+ s +:+ dquote.

Definition text_section_number : string :=
  "{" +:+ quoted "CustomSensor" +:+ ": 5}".

Definition text_no_pressure : string :=
  "{" +:+ quoted "CustomSensor" +:+ ": {" +:+ quoted "Temperature" +:+ ": 21, "
      +:+ quoted "Humidity" +:+ ": 40}}".

Definition text_complete : string :=
  "{" +:+ quoted "CustomSensor" +:+ ": {" +:+ quoted "Temperature" +:+ ": 21, "
      +:+ quoted "Humidity" +:+ ": 40, " +:+ quoted "Pressure" +:+ ": 1013}}".

Definition sample_texts : list (string * value) :=
  [ ("5", VInt 5);
    (text_section_number, VDict [("CustomSensor", VInt 5)]);
    (text_no_pressure,
     VDict [("CustomSensor", VDict [("Temperature", VInt 21); ("Humidity", VInt 40)])]);
    (text_complete,
     VDict [("CustomSensor", VDict [("Temperature", VInt 21); ("Humidity", VInt 40);
                                    ("Pressure", VInt 1013)])]) ].

Definition sample_builtins : Builtins :=
  {| repr := sample_repr; json_loads := sample_loads sample_texts |}.

(** An outside world for closed examples: a server that answers each request
    by a fixed function of it, a clock that counts, the reports written, and
    a broker with a result code and an inbox. *)
Record SampleWorld := {
  server : Request -> outcome value;
  services : list (option (list (list Byte.byte)));
  clock : N;
  written : list (string * Report.t);
  broker_rc : outcome Z;
  inbox : list string;
}.

Global Instance sample_world : World SampleWorld := {|
  requests_get req w := (server w req, w);
  zeroconf_browse _ w := (services w, w);
  utcnow_isoformat w :=
    ("t" +:+ pretty (clock w),
     {| server := server w; services := services w; clock := clock w + 1;
        written := written w; broker_rc := broker_rc w; inbox := inbox w |});
  json_dump_to path report w :=
    (Returns tt,
     {| server := server w; services := services w; clock := clock w;
        written := written w ++ [(path, report)]; broker_rc := broker_rc w;
        inbox := inbox w |});
  mqtt_connect _ _ _ _ w := (broker_rc w, w);
  mqtt_deliver subs _ w :=
    (match subs with [] => [] | _ => inbox w end,
     {| server := server w; services := services w; clock := clock w;
        written := written w; broker_rc := broker_rc w; inbox := [] |});
|}.

(** A world with nothing on the network. *)
Definition quiet_world : SampleWorld := {|
  server := fun _ => Raises (RequestException "connection refused");
  services := [];
  clock := 0;
  written := [];
  broker_rc := Returns 0%Z;
  inbox := [];
|}.

Definition start {W} (w : W) : Sys W := {| ext := w; sent := [] |}.

(** A broker that accepts the connection and delivers [messages]. *)
Definition broker (messages : list string) : SampleWorld := {|
  server := fun _ => Raises (RequestException "connection refused");
  services := [];
  clock := 0;
  written := [];
  broker_rc := Returns 0%Z;
  inbox := messages;
|}.

(** A device that answers the status query with a hostname and a topic. *)
Definition status_answer (hostname topic : string) : value :=
  VDict [("StatusNET", VDict [("Hostname", VStr hostname)]);
         ("Status", VDict [("Topic", VStr topic)])].

(** A network on which the services found advertise [addresses] and the
    hosts at the URLs [up] answer the status query. *)
Definition lan (addresses : list (list Byte.byte)) (up : list string)
  : SampleWorld := {|
  server := fun req =>
    if bool_decide (url req ∈ up)
    then Returns (status_answer "tasmota" "kitchen")
    else Raises (RequestException "connection refused");
  services := [Some addresses];
  clock := 0;
  written := [];
  broker_rc := Returns 0%Z;
  inbox := [];
|}.

(** The name and the argument of a command text, split at its first space. *)
Fixpoint split_space (c : string) : string * string :=
  match c with
  | EmptyString => (EmptyString, EmptyString)
  | String a rest =>
      if Ascii.eqb a " "%char
      then (EmptyString, rest)
      else let '(name, arg) := split_space rest in (String a name, arg)
  end.

(** A device that answers a command with its name and argument, as a
    Tasmota device does, and times out on the command [fail_on]. *)
Definition device (fail_on : option string) : SampleWorld := {|
  server := fun req =>
    match dict_lookup "cmnd" (params req) with
    | Some (VStr c) =>
        let '(name, arg) := split_space c in
        if bool_decide (Some name = fail_on)
        then Raises (RequestException "read timed out")
        else Returns (VDict [(name, VStr arg)])
    | _ => Raises (RequestException "400 Client Error")
    end;
  services := [];
  clock := 0;
  written := [];
  broker_rc := Returns 0%Z;
  inbox := [];
|}.

(** A broker that refuses the connection. *)
Definition broker_down : SampleWorld := {|
  server := fun _ => Raises (RequestException "connection refused");
  services := [];
  clock := 0;
  written := [];
  broker_rc := Raises (OSError "[Errno 111] Connection refused");
  inbox := [];
|}.

(** A frame of a listening call on the kitchen topic. *)
Definition kitchen_frame (w : SampleWorld) : @ListenFrame SampleWorld :=
  {| lf_sys := start w; results := []; subscriptions := ["tele/kitchen/SENSOR"] |}.

(** The three records of an unparsable, an incomplete and a valid message. *)
Definition three_records : list ValidationRecord.t := [
  {| ValidationRecord.ts := "t0"; ValidationRecord.valid := false;
     ValidationRecord.errors := ["Expecting value: line 1 column 1 (char 0)"];
     ValidationRecord.payload := None |};
  {| ValidationRecord.ts := "t1"; ValidationRecord.valid := false;
     ValidationRecord.errors := ["Missing 'Pressure'"];
     ValidationRecord.payload := Some (VDict [("CustomSensor", VDict [])]) |};
  {| ValidationRecord.ts := "t2"; ValidationRecord.valid := true;
     ValidationRecord.errors := [];
     ValidationRecord.payload := Some (VDict [("CustomSensor", VDict [])]) |} ].

(** The clock of the sample world in seconds: [time.time()] reads it, and a
    sleep moves it on by one (the tool only sleeps for one second). *)
Global Instance sample_clock : Clock SampleWorld := {|
  time_time w := (N.iter (clock w) (fun x => PrimFloat.add x 1%float) 0%float, w);
  time_sleep _ w :=
    {| server := server w; services := services w; clock := clock w + 1;
       written := written w; broker_rc := broker_rc w; inbox := inbox w |};
|}.

(** A device that answers the status query, answers a command with its name
    and argument, and times out on the command [fail_on]. *)
Definition provisioned_device (topic : option string) (fail_on : option string)
  : SampleWorld := {|
  server := fun req =>
    match dict_lookup "cmnd" (params req) with
    | Some (VStr "Status 0") =>
        Returns (VDict [("StatusNET", VDict [("Hostname", VStr "tasmota")]);
                        ("Status", match topic with
                                   | Some t => VDict [("Topic", VStr t)]
                                   | None => VDict []
                                   end)])
    | Some (VStr c) =>
        let '(name, arg) := split_space c in
        if bool_decide (Some name = fail_on)
        then Raises (RequestException "read timed out")
        else Returns (VDict [(name, VStr arg)])
    | _ => Raises (RequestException "400 Client Error")
    end;
  services := [];
  clock := 0;
  written := [];
  broker_rc := Returns 0%Z;
  inbox := [];
|}.

(** A command line naming the device and no topic. *)
Definition sample_args : Args.t := {|
  Args.device_ip := Some "10.0.0.9";
  Args.web_user := None;
  Args.web_pass := None;
  Args.ssid := "home";
  Args.wifi_pass := "hunter2";
  Args.mqtt_host := "broker.lan";
  Args.mqtt_port := 1883;
  Args.mqtt_user := EmptyString;
  Args.mqtt_pass := EmptyString;
  Args.mqtt_topic := None;
  Args.duration := 30%float;
  Args.output := "report.json";
  Args.mdns_timeout := 5%float;
|}.

(** * Properties *)

(** ** Dictionaries *)

Lemma dict_lookup_set_eq k v d : dict_lookup k (dict_set k v d) = Some v.
Proof.
  induction d as [|[k' v'] d IH]; simpl.
  - by rewrite String.eqb_refl.
  - destruct (String.eqb k k') eqn:E; simpl; rewrite E; [reflexivity | exact IH].
Qed.

Lemma dict_lookup_set_ne k k' v d :
  k <> k' -> dict_lookup k' (dict_set k v d) = dict_lookup k' d.
Proof.
  intros Hne. induction d as [|[k'' v''] d IH]; simpl.
  - destruct (String.eqb k' k) eqn:E; [|done].
    apply String.eqb_eq in E. congruence.
  - destruct (String.eqb k k'') eqn:E; simpl.
    + apply String.eqb_eq in E. subst k''.
      assert (String.eqb k' k = false) as -> by (apply String.eqb_neq; congruence).
      reflexivity.
    + by rewrite IH.
Qed.

Lemma dict_has_set k k' v d :
  dict_has k' (dict_set k v d) = String.eqb k k' || dict_has k' d.
Proof.
  unfold dict_has. destruct (String.eqb k k') eqn:E.
  - apply String.eqb_eq in E. subst. by rewrite dict_lookup_set_eq.
  - apply String.eqb_neq in E. by rewrite dict_lookup_set_ne.
Qed.

(** ** Payload schema validation *)

Section ValidationFacts.
Context `{Builtins}.

Local Ltac field_contributes lem :=
  eexists; split; [reflexivity|]; split; [by eapply lem|];
  split; [discriminate|];
  let Hv := fresh in
  intros (? & Hv & ?); first [discriminate Hv | injection Hv as <-; discriminate].

Local Ltac field_passes :=
  exists []; rewrite app_nil_r; split; [reflexivity|];
  split; [by eapply field_numeric|]; split; [eauto|done].

(** One turn of the loop appends what the field contributes. *)
Lemma check_key_section (cs : dict) (errors : list string) (k : string) :
  exists e,
    check_key (VDict cs) errors k = Returns (errors ++ e) /\
    field_errors cs k e /\
    (e = [] <-> field_ok cs k).
Proof.
  unfold check_key, field_ok. simpl. unfold obind.
  destruct (dict_lookup k cs) as [v|] eqn:Hk.
  - destruct v; simpl;
      first [ field_passes
            | field_contributes field_null
            | field_contributes field_wrong_type ].
  - field_contributes field_absent.
Qed.

Lemma validate_payload_on_section (d cs : dict) :
  dict_lookup "CustomSensor" d = Some (VDict cs) ->
  validate_payload (VDict d) = for_each (check_key (VDict cs)) REQUIRED_KEYS [].
Proof. intros Hcs. unfold validate_payload. simpl. by rewrite Hcs. Qed.


(** C4: with the section present, each of Temperature, Humidity and Pressure
    contributes its own errors, in that order and without stopping at the
    first; the result is empty exactly when all three are present and pass the
    type check. *)
Theorem validate_payload_fields (d cs : dict) :
  dict_lookup "CustomSensor" d = Some (VDict cs) ->
  exists eT eH eP,
    validate_payload (VDict d) = Returns (eT ++ eH ++ eP) /\
    field_errors cs "Temperature" eT /\
    field_errors cs "Humidity" eH /\
    field_errors cs "Pressure" eP /\
    (eT ++ eH ++ eP = [] <->
     field_ok cs "Temperature" /\ field_ok cs "Humidity" /\ field_ok cs "Pressure").
Proof.
  intros Hcs. rewrite (validate_payload_on_section _ _ Hcs).
  destruct (check_key_section cs [] "Temperature") as (eT & HT & HfT & HoT).
  destruct (check_key_section cs eT "Humidity") as (eH & HH & HfH & HoH).
  destruct (check_key_section cs (eT ++ eH) "Pressure") as (eP & HP & HfP & HoP).
  exists eT, eH, eP. split.
  - unfold REQUIRED_KEYS. simpl in *. unfold mbind, outcome_bind.
    rewrite HT. simpl. rewrite HH. simpl. rewrite HP. simpl.
    by rewrite <- app_assoc.
  - repeat split; try assumption.
    + apply HoT. by destruct eT.
    + apply HoH. destruct eT; [by destruct eH | done].
    + apply HoP. destruct eT; [destruct eH; [done|done] | done].
    + intros (HT' & HH' & HP').
      apply HoT in HT'. apply HoH in HH'. apply HoP in HP'. by subst.
Qed.

(** C10: booleans pass the type check, so a section whose three fields are
    booleans is valid. *)
Theorem validate_payload_booleans (d cs : dict) (bT bH bP : bool) :
  dict_lookup "CustomSensor" d = Some (VDict cs) ->
  dict_lookup "Temperature" cs = Some (VBool bT) ->
  dict_lookup "Humidity" cs = Some (VBool bH) ->
  dict_lookup "Pressure" cs = Some (VBool bP) ->
  validate_payload (VDict d) = Returns [].
Proof.
  intros Hcs HT HH HP. rewrite (validate_payload_on_section _ _ Hcs).
  unfold REQUIRED_KEYS, check_key. simpl. by rewrite HT, HH, HP.
Qed.

(** C9, as amended: when the "CustomSensor" key is present and its value is
    neither a dict nor None, the call raises AttributeError. *)
Theorem validate_payload_section_not_dict (d : dict) (v : value) :
  dict_lookup "CustomSensor" d = Some v ->
  is_dict v = false ->
  v <> VNone ->
  validate_payload (VDict d) =
    Raises (AttributeError ("'" +:+ type_name v +:+ "' object has no attribute 'get'")).
Proof.
  intros Hd Hv Hn. unfold validate_payload. simpl. rewrite Hd.
  destruct v; done.
Qed.

End ValidationFacts.


(** C4, at a section with a string for Temperature and no Pressure. *)
Lemma validate_payload_fields_witness :
  let cs := [("Temperature", VStr "hot"); ("Humidity", VInt 40)] in
  let d := [("CustomSensor", VDict cs)] in
  dict_lookup "CustomSensor" d = Some (VDict cs) /\
  exists eT eH eP,
    @validate_payload sample_builtins (VDict d) = Returns (eT ++ eH ++ eP) /\
    @field_errors sample_builtins cs "Temperature" eT /\
    @field_errors sample_builtins cs "Humidity" eH /\
    @field_errors sample_builtins cs "Pressure" eP /\
    (eT ++ eH ++ eP = [] <->
     field_ok cs "Temperature" /\ field_ok cs "Humidity" /\ field_ok cs "Pressure").
Proof.
  split; [reflexivity|].
  apply (@validate_payload_fields sample_builtins). reflexivity.
Defined.

Example validate_payload_two_errors :
  @validate_payload sample_builtins
    (VDict [("CustomSensor",
             VDict [("Temperature", VStr "hot"); ("Humidity", VInt 40)])])
  = Returns ["'Temperature' not numeric: 'hot'"; "Missing 'Pressure'"].
Proof. reflexivity. Qed.

(** C10, at a section of three booleans. *)
Lemma validate_payload_booleans_witness :
  @validate_payload sample_builtins
    (VDict [("CustomSensor",
             VDict [("Temperature", VBool true); ("Humidity", VBool false);
                    ("Pressure", VBool true)])])
  = Returns [].
Proof.
  eapply (@validate_payload_booleans sample_builtins); reflexivity.
Defined.

(** C9 as stated fails when the value under the key is None: the key is
    present, its value is not a dict, and the call returns the
    missing-section error instead of raising. *)
Lemma validate_payload_null_section_returns :
  let d := [("CustomSensor", VNone)] in
  dict_lookup "CustomSensor" d = Some VNone /\
  is_dict VNone = false /\
  @validate_payload sample_builtins (VDict d) = Returns ["Missing 'CustomSensor' key"].
Proof. repeat split. Qed.

(** C9 as amended, at the payload [{"CustomSensor": 5}]. *)
Lemma validate_payload_section_not_dict_witness :
  @validate_payload sample_builtins (VDict [("CustomSensor", VInt 5)]) =
    Raises (AttributeError "'int' object has no attribute 'get'").
Proof.
  apply (@validate_payload_section_not_dict sample_builtins
           [("CustomSensor", VInt 5)] (VInt 5)); [reflexivity | reflexivity | discriminate].
Defined.

(** ** Report *)

Section ReportFacts.
Context {W : Type} `{World W}.

Lemma fold_add_ones {A} (l : list A) (acc : Z) :
  fold_left Z.add (map (fun _ => 1%Z) l) acc = (acc + len l)%Z.
Proof.
  unfold len. revert acc. induction l as [|a l IH]; intros acc; simpl.
  - lia.
  - rewrite IH. lia.
Qed.

Lemma py_sum_ones {A} (l : list A) : py_sum (map (fun _ => 1%Z) l) = len l.
Proof. unfold py_sum. rewrite fold_add_ones. lia. Qed.

Lemma len_filter_le {A} (p : A -> bool) (l : list A) :
  (0 <= len (List.filter p l) <= len l)%Z.
Proof.
  unfold len. split; [lia|]. apply inj_le.
  induction l as [|a l IH]; simpl; [lia|]. destruct (p a); simpl; lia.
Qed.

(** The report [generate_report] returns, when writing it succeeds, has the
    summary computed from its arguments. *)
Lemma generate_report_returns devices config_res validation path s report s' :
  generate_report devices config_res validation path s = (Returns report, s') ->
  let passed := len (List.filter ValidationRecord.valid validation) in
  Report.summary report = {|
    Summary.devices_found := len devices;
    Summary.messages_received := len validation;
    Summary.valid := passed;
    Summary.invalid := (len validation - passed)%Z;
    Summary.pass := (0 <? passed)%Z && (passed =? len validation)%Z |} /\
  Report.validation report = validation.
Proof.
  unfold generate_report, world_call, world_try. simpl.
  unfold mbind, M_bind, mret, M_ret. simpl.
  destruct (utcnow_isoformat (ext s)) as [now w1]. simpl.
  destruct (json_dump_to _ _ w1) as [[[]|e] w2]; intros Hrun; [|discriminate].
  injection Hrun as <- _. simpl. by rewrite py_sum_ones.
Qed.

(** C1: in every report built, valid + invalid = messages_received, and pass
    holds exactly when at least one message was received and all of them are
    valid. *)
Theorem generate_report_summary devices config_res validation path s report s' :
  generate_report devices config_res validation path s = (Returns report, s') ->
  let sm := Report.summary report in
  (Summary.valid sm + Summary.invalid sm = Summary.messages_received sm)%Z /\
  (Summary.pass sm = true <->
   (Summary.messages_received sm > 0)%Z /\
   Summary.valid sm = Summary.messages_received sm) /\
  (Summary.messages_received sm = 0%Z -> Summary.pass sm = false).
Proof.
  intros Hrun. apply generate_report_returns in Hrun as [Hsm _].
  simpl. rewrite Hsm. simpl.
  pose proof (len_filter_le ValidationRecord.valid validation) as Hle.
  split; [lia|]. split.
  - rewrite andb_true_iff, Z.ltb_lt, Z.eqb_eq. lia.
  - intros H0. apply andb_false_iff. left. apply Z.ltb_ge. lia.
Qed.

End ReportFacts.

(** C1, at the three records of an unparsable, an incomplete and a valid
    message. *)
Lemma generate_report_summary_witness :
  let validation := [
    {| ValidationRecord.ts := "t0"; ValidationRecord.valid := false;
       ValidationRecord.errors := ["Expecting value: line 1 column 1 (char 0)"];
       ValidationRecord.payload := None |};
    {| ValidationRecord.ts := "t1"; ValidationRecord.valid := false;
       ValidationRecord.errors := ["Missing 'Pressure'"];
       ValidationRecord.payload := Some (VDict [("CustomSensor", VDict [])]) |};
    {| ValidationRecord.ts := "t2"; ValidationRecord.valid := true;
       ValidationRecord.errors := [];
       ValidationRecord.payload := Some (VDict [("CustomSensor", VDict [])]) |} ] in
  exists report s',
    generate_report [] [] validation "report.json" (start quiet_world)
      = (Returns report, s') /\
    let sm := Report.summary report in
    (Summary.valid sm + Summary.invalid sm = Summary.messages_received sm)%Z /\
    (Summary.pass sm = true <->
     (Summary.messages_received sm > 0)%Z /\
     Summary.valid sm = Summary.messages_received sm) /\
    (Summary.messages_received sm = 0%Z -> Summary.pass sm = false).
Proof.
  intros validation. eexists _, _. split; [vm_compute; reflexivity|].
  eapply (generate_report_summary [] [] validation "report.json" (start quiet_world)).
  vm_compute. reflexivity.
Defined.

Example generate_report_scenario :
  let validation := [
    {| ValidationRecord.ts := "t0"; ValidationRecord.valid := false;
       ValidationRecord.errors := ["Expecting value: line 1 column 1 (char 0)"];
       ValidationRecord.payload := None |};
    {| ValidationRecord.ts := "t1"; ValidationRecord.valid := false;
       ValidationRecord.errors := ["Missing 'Pressure'"];
       ValidationRecord.payload := Some (VDict [("CustomSensor", VDict [])]) |};
    {| ValidationRecord.ts := "t2"; ValidationRecord.valid := true;
       ValidationRecord.errors := [];
       ValidationRecord.payload := Some (VDict [("CustomSensor", VDict [])]) |} ] in
  option_map Report.summary
    (returned (fst (generate_report [] [] validation "report.json" (start quiet_world))))
  = Some {| Summary.devices_found := 0; Summary.messages_received := 3;
            Summary.valid := 1; Summary.invalid := 2; Summary.pass := false |}.
Proof. reflexivity. Qed.

Example generate_report_no_messages :
  option_map Report.summary
    (returned (fst (generate_report [] [] [] "report.json" (start quiet_world))))
  = Some {| Summary.devices_found := 0; Summary.messages_received := 0;
            Summary.valid := 0; Summary.invalid := 0; Summary.pass := false |}.
Proof. reflexivity. Qed.

(** ** Probing *)

Section ProbeFacts.
Context {W : Type} `{World W}.

(** [probe_tasmota] sends the status query once and returns, whatever the
    answer; the device it returns is read off a well-formed answer. *)
Lemma probe_tasmota_run ip web_user web_pass (s : Sys W) :
  let req := status_request ip web_user web_pass in
  let answer := requests_get req (ext s) in
  probe_tasmota ip web_user web_pass s =
    (Returns
       (match answer.1 with
        | Returns v =>
            match status_sections v with
            | Some (net, st) =>
                Some {| Device.ip := ip;
                        Device.hostname := default (VStr ip) (dict_lookup "Hostname" net);
                        Device.topic := default VNone (dict_lookup "Topic" st) |}
            | None => None
            end
        | Raises _ => None
        end),
     {| ext := answer.2; sent := sent s ++ [req] |}).
Proof.
  unfold probe_tasmota, try_except, http_get_json, requests_get_sys, status_request.
  unfold mbind, M_bind.
  destruct (requests_get _ (ext s)) as [[v|e] w']; simpl; [|reflexivity].
  destruct v as [| | | | | |d]; simpl; try reflexivity.
  unfold dict_has.
  destruct (dict_lookup "StatusNET" d) as [net|]; simpl; [|reflexivity].
  destruct (dict_lookup "Status" d) as [st|]; simpl;
    [|by destruct net].
  destruct net as [| | | | | |net]; simpl; try reflexivity.
  destruct st as [| | | | | |st]; simpl; reflexivity.
Qed.

(** C7: [probe_tasmota] never raises.  A transport error, or an answer that
    is not a dict holding both the "StatusNET" and the "Status" section,
    gives None; a well-formed answer gives the device, whose hostname is the
    probed address when the answer has none and whose topic is None when the
    answer has none. *)
Theorem probe_tasmota_never_raises ip web_user web_pass (s : Sys W) :
  let req := status_request ip web_user web_pass in
  let answer := (requests_get req (ext s)).1 in
  exists r s',
    probe_tasmota ip web_user web_pass s = (Returns r, s') /\
    sent s' = sent s ++ [req] /\
    (forall e, answer = Raises e -> r = None) /\
    (forall v, answer = Returns v -> is_dict v = false -> r = None) /\
    (forall d, answer = Returns (VDict d) ->
       dict_has "StatusNET" d && dict_has "Status" d = false -> r = None) /\
    (forall v, answer = Returns v -> status_sections v = None -> r = None) /\
    (forall v net st, answer = Returns v -> status_sections v = Some (net, st) ->
       exists dev, r = Some dev /\
         Device.ip dev = ip /\
         Device.hostname dev = default (VStr ip) (dict_lookup "Hostname" net) /\
         (dict_lookup "Hostname" net = None -> Device.hostname dev = VStr ip) /\
         Device.topic dev = default VNone (dict_lookup "Topic" st) /\
         (dict_lookup "Topic" st = None -> Device.topic dev = VNone)).
Proof.
  intros req answer. eexists _, _. split; [apply probe_tasmota_run|].
  fold req. fold answer. simpl. split; [reflexivity|].
  repeat split.
  - by intros e ->.
  - intros v -> Hv. by destruct v.
  - intros d -> Hd. simpl. unfold dict_has in Hd.
    destruct (dict_lookup "StatusNET" d) as [net|]; [|done].
    destruct (dict_lookup "Status" d) as [st|]; [done|by destruct net].
  - by intros v -> ->.
  - intros v net st -> ->. eexists. split; [reflexivity|]. simpl.
    repeat split; by intros ->.
Qed.

End ProbeFacts.

Example probe_tasmota_defaults :
  let w := {| server := fun _ => Returns (VDict [("StatusNET", VDict []);
                                                ("Status", VDict [])]);
              services := []; clock := 0; written := [];
              broker_rc := Returns 0%Z; inbox := [] |} in
  (probe_tasmota "10.0.0.9" None None (start w)).1 =
    Returns (Some {| Device.ip := "10.0.0.9"; Device.hostname := VStr "10.0.0.9";
                     Device.topic := VNone |}).
Proof. reflexivity. Qed.

Example probe_tasmota_section_not_dict :
  let w := {| server := fun _ => Returns (VDict [("StatusNET", VInt 1);
                                                ("Status", VDict [])]);
              services := []; clock := 0; written := [];
              broker_rc := Returns 0%Z; inbox := [] |} in
  (probe_tasmota "10.0.0.9" None None (start w)).1 = Returns None.
Proof. reflexivity. Qed.

(** ** Discovery *)

Lemma str_le_iff (s1 s2 : string) :
  str_le s1 s2 <-> String_as_OT.lt s1 s2 \/ s1 = s2.
Proof.
  unfold str_le, String.leb.
  rewrite <- String_as_OT.cmp_lt, <- String_as_OT.cmp_eq.
  unfold String_as_OT.cmp. destruct (String.compare s1 s2); intuition congruence.
Qed.

Global Instance str_le_total : Total str_le.
Proof. intros s1 s2. apply String.leb_total. Qed.

Global Instance str_le_trans : Transitive str_le.
Proof.
  intros s1 s2 s3. rewrite !str_le_iff.
  intros [H12| ->] [H23| ->]; eauto using String_as_OT.lt_trans.
Qed.

Global Instance str_le_antisym : AntiSymm (=) str_le.
Proof. intros s1 s2. apply String.leb_antisym. Qed.

Lemma sorted_ascending (ips : gset string) : StronglySorted str_le (sorted ips).
Proof. apply StronglySorted_merge_sort; apply _. Qed.

Lemma sorted_elements (ips : gset string) : sorted ips ≡ₚ elements ips.
Proof. apply merge_sort_Permutation. Qed.

Lemma sorted_NoDup (ips : gset string) : NoDup (sorted ips).
Proof. rewrite sorted_elements. apply NoDup_elements. Qed.

Lemma elem_of_sorted (ips : gset string) ip : ip ∈ sorted ips <-> ip ∈ ips.
Proof. rewrite sorted_elements. apply elem_of_elements. Qed.

Lemma StronglySorted_sublist {A} (R : relation A) (k l : list A) :
  k `sublist_of` l -> StronglySorted R l -> StronglySorted R k.
Proof.
  induction 1 as [|x k l Hkl IH|x k l Hkl IH]; intros Hl.
  - constructor.
  - apply StronglySorted_inv in Hl as [Hl Hx]. constructor; [by apply IH|].
    rewrite Forall_forall in Hx |- *. intros y Hy.
    apply Hx. eauto using elem_of_sublist.
  - apply StronglySorted_inv in Hl as [Hl _]. by apply IH.
Qed.

Section DiscoveryFacts.
Context {W : Type} `{World W}.

Lemma for_each_cons {S A B} (body : B -> A -> M S B) a l (b : B) (s : S) :
  for_each body (a :: l) b s =
    match body b a s with
    | (Returns b', s') => for_each body l b' s'
    | (Raises e, s') => (Raises e, s')
    end.
Proof. reflexivity. Qed.

Lemma probe_step_run web_user web_pass devices ip (s : Sys W) r s1 :
  probe_tasmota ip web_user web_pass s = (Returns r, s1) ->
  probe_step web_user web_pass devices ip s =
    (Returns (match r with Some d => devices ++ [d] | None => devices end), s1).
Proof. intros Hrun. unfold probe_step, mbind, M_bind. by rewrite Hrun. Qed.

(** The loop of [discover] over any list of candidates. *)
Lemma probe_loop web_user web_pass (candidates : list string) :
  forall (devices : list Device.t) (s : Sys W),
  exists outcomes s',
    probed web_user web_pass candidates s outcomes s' /\
    for_each (probe_step web_user web_pass) candidates devices s
      = (Returns (devices ++ omap id outcomes), s') /\
    sent s' = sent s ++ map (fun ip => status_request ip web_user web_pass) candidates /\
    map Device.ip (omap id outcomes) `sublist_of` candidates.
Proof.
  induction candidates as [|ip ips IH]; intros devices s.
  - exists [], s. simpl. rewrite !app_nil_r. repeat split; constructor.
  - pose proof (probe_tasmota_run ip web_user web_pass s) as Hrun. simpl in Hrun.
    set (r := match _ with Returns _ => _ | Raises _ => None end) in Hrun.
    set (s1 := Build_Sys _ _ _) in Hrun.
    destruct (IH (match r with Some d => devices ++ [d] | None => devices end) s1)
      as (outcomes & s' & Hprobed & Hloop & Hsent & Hsub).
    exists (r :: outcomes), s'. split; [by econstructor|]. split; [|split].
    + rewrite for_each_cons, (probe_step_run _ _ _ _ _ _ _ Hrun), Hloop.
      f_equal. f_equal. destruct r; simpl; [by rewrite <- app_assoc | done].
    + rewrite Hsent. simpl. by rewrite <- app_assoc.
    + assert (forall d, r = Some d -> Device.ip d = ip) as Hip.
      { subst r. intros d. destruct (requests_get _ _).1 as [v|e]; [|done].
        destruct (status_sections v) as [[net st]|]; [|done].
        by intros [= <-]. }
      destruct r as [d|] eqn:Hr; simpl.
      * rewrite (Hip d eq_refl). by apply sublist_skip.
      * by apply sublist_cons.
Qed.

(** The probing loop on a set of collected addresses. *)
Lemma probe_candidates_run (ips : gset string) web_user web_pass (s : Sys W) :
  exists outcomes s',
    probed web_user web_pass (sorted ips) s outcomes s' /\
    probe_candidates ips web_user web_pass s = (Returns (omap id outcomes), s') /\
    sent s' = sent s ++ map (fun ip => status_request ip web_user web_pass) (sorted ips) /\
    map Device.ip (omap id outcomes) `sublist_of` sorted ips.
Proof. apply (probe_loop web_user web_pass (sorted ips) [] s). Qed.


End DiscoveryFacts.

Example discover_scenario :
  (discover 5%float None None
     (start (lan [[Byte.x0a; Byte.x00; Byte.x00; Byte.x05];
                  [Byte.x0a; Byte.x00; Byte.x00; Byte.x09]]
                 ["http://10.0.0.9/cm"]))).1
  = Returns [ {| Device.ip := "10.0.0.9"; Device.hostname := VStr "tasmota";
                 Device.topic := VStr "kitchen" |} ].
Proof. vm_compute. reflexivity. Qed.


(** ** Configuration *)

Lemma dict_set_fresh k v (d : dict) :
  dict_lookup k d = None -> dict_set k v d = d ++ [(k, v)].
Proof.
  induction d as [|[k' v'] d IH]; simpl; [done|].
  destruct (String.eqb k k'); [done|]. intros Hd. by rewrite IH.
Qed.

Lemma dict_lookup_app k (d1 d2 : dict) :
  dict_lookup k (d1 ++ d2) =
    match dict_lookup k d1 with Some v => Some v | None => dict_lookup k d2 end.
Proof.
  induction d1 as [|[k' v'] d1 IH]; simpl; [done|].
  by destruct (String.eqb k k').
Qed.

(** Storing under distinct fresh names appends the items in order. *)
Lemma dict_store_fresh (kvs : dict) :
  forall d : dict,
  NoDup (map fst kvs) ->
  (forall k, k ∈ map fst kvs -> dict_lookup k d = None) ->
  fold_left (fun d kv => dict_set kv.1 kv.2 d) kvs d = d ++ kvs.
Proof.
  induction kvs as [|[k v] kvs IH]; intros d Hnd Hfresh; simpl.
  - by rewrite app_nil_r.
  - simpl in Hnd. apply NoDup_cons in Hnd as [Hk Hnd].
    rewrite dict_set_fresh by (apply Hfresh; simpl; left).
    rewrite IH; [by rewrite <- app_assoc | done |].
    intros k' Hk'. rewrite dict_lookup_app, Hfresh by (simpl; by right).
    simpl. destruct (String.eqb k' k) eqn:E; [|done].
    apply String.eqb_eq in E. by subst.
Qed.

Section ConfigureFacts.
Context {W : Type} `{World W}.

Lemma res_store_run k ip command web_user web_pass (f : @ConfigureFrame W) :
  let req := command_request ip command web_user web_pass in
  let answer := requests_get req (ext (cf_sys f)) in
  let sys' := {| ext := answer.2; sent := sent (cf_sys f) ++ [req] |} in
  res_store k (cmd ip command web_user web_pass) f =
    match answer.1 with
    | Returns r => (Returns tt, {| cf_sys := sys'; res := dict_set k r (res f) |})
    | Raises e => (Raises e, {| cf_sys := sys'; res := res f |})
    end.
Proof.
  unfold res_store, in_sys, zoom, cmd, http_get_json, requests_get_sys, res_set,
    modify, command_request, mbind, M_bind.
  simpl. by destruct (requests_get _ _) as [[r|e] w'].
Qed.

Lemma store_all_cons ip web_user web_pass k c rest (f : @ConfigureFrame W) :
  store_all ip web_user web_pass ((k, c) :: rest) f =
    match res_store k (cmd ip c web_user web_pass) f with
    | (Returns _, f1) => store_all ip web_user web_pass rest f1
    | (Raises e, f1) => (Raises e, f1)
    end.
Proof.
  destruct rest as [|kc rest]; [|reflexivity]. simpl.
  by destruct (res_store _ _ _) as [[[]|e] f1].
Qed.

(** A run of [store_all] that returns has sent every command in order, and
    has stored each answer under its name. *)
Lemma store_all_returns ip web_user web_pass (cmds : list (string * string)) :
  forall f f' : @ConfigureFrame W,
  store_all ip web_user web_pass cmds f = (Returns tt, f') ->
  let reqs := map (fun kc => command_request ip kc.2 web_user web_pass) cmds in
  exists responses,
    answers reqs (ext (cf_sys f)) = (map Returns responses, ext (cf_sys f')) /\
    length responses = length cmds /\
    sent (cf_sys f') = sent (cf_sys f) ++ reqs /\
    res f' = fold_left (fun d kv => dict_set kv.1 kv.2 d)
               (zip (map fst cmds) responses) (res f).
Proof.
  induction cmds as [|[k c] cmds IH]; intros f f' Hrun.
  - injection Hrun as <-. exists []. simpl. by rewrite app_nil_r.
  - rewrite store_all_cons, res_store_run in Hrun. simpl.
    destruct (requests_get _ _) as [[r|e] w1]; simpl in Hrun; [|discriminate].
    apply IH in Hrun as (responses & Hans & Hlen & Hsent & Hres). simpl in *.
    exists (r :: responses). rewrite Hans. simpl.
    repeat split; [by rewrite Hlen | by rewrite Hsent, <- app_assoc | exact Hres].
Qed.

(** A command that fails ends [store_all] with its exception; what was stored
    before stays as it was stored. *)
Lemma store_all_raises_at ip web_user web_pass k c rest (f : @ConfigureFrame W) e :
  (requests_get (command_request ip c web_user web_pass) (ext (cf_sys f))).1
    = Raises e ->
  exists f',
    store_all ip web_user web_pass ((k, c) :: rest) f = (Raises e, f') /\
    res f' = res f.
Proof.
  intros He. rewrite store_all_cons, res_store_run. rewrite He. eauto.
Qed.

Lemma configure_commands_store_all ip ssid wifi_pass mqtt_host mqtt_port
    mqtt_user mqtt_pass topic web_user web_pass (f : @ConfigureFrame W) :
  configure_commands ip ssid wifi_pass mqtt_host mqtt_port
    mqtt_user mqtt_pass topic web_user web_pass f =
  store_all ip web_user web_pass
    (commands ssid wifi_pass mqtt_host mqtt_port mqtt_user mqtt_pass topic)
    {| cf_sys := cf_sys f; res := [] |}.
Proof.
  unfold configure_commands, commands.
  destruct (truthy mqtt_user), (truthy mqtt_pass), (truthy topic); reflexivity.
Qed.

Lemma commands_names_NoDup ssid wifi_pass mqtt_host mqtt_port mqtt_user mqtt_pass topic :
  NoDup (map fst (commands ssid wifi_pass mqtt_host mqtt_port
                    mqtt_user mqtt_pass topic)).
Proof.
  unfold commands.
  destruct (truthy mqtt_user), (truthy mqtt_pass), (truthy topic); simpl;
    by apply (bool_decide_unpack _).
Qed.

Lemma configure_redact_run (f : @ConfigureFrame W) :
  configure_redact f =
    (Returns (redacted (res f)), {| cf_sys := cf_sys f; res := redacted (res f) |}).
Proof.
  unfold configure_redact, redacted, res_set, modify, gets, when, mbind, M_bind.
  simpl. by destruct (dict_has _ _).
Qed.

Lemma dict_lookup_redacted k (d : dict) :
  dict_lookup "Password1" d <> None ->
  dict_lookup k (redacted d) =
    if secret_key k then (fun _ => VStr "***") <$> dict_lookup k d
    else dict_lookup k d.
Proof.
  intros Hp. unfold redacted, secret_key.
  rewrite dict_has_set. simpl.
  destruct (String.eqb k "Password1") eqn:E1; simpl.
  - apply String.eqb_eq in E1. subst k.
    destruct (dict_lookup "Password1" d) eqn:Hd; [simpl|done].
    destruct (dict_has "MqttPassword" d).
    + by rewrite dict_lookup_set_ne, dict_lookup_set_eq.
    + by rewrite dict_lookup_set_eq.
  - apply String.eqb_neq in E1.
    destruct (String.eqb k "MqttPassword") eqn:E2; simpl.
    + apply String.eqb_eq in E2. subst k. unfold dict_has.
      destruct (dict_lookup "MqttPassword" d) eqn:Hd; simpl.
      * by rewrite dict_lookup_set_eq.
      * by rewrite dict_lookup_set_ne.
    + apply String.eqb_neq in E2.
      destruct (dict_has "MqttPassword" d);
        rewrite ?(dict_lookup_set_ne "MqttPassword") by done;
        by rewrite dict_lookup_set_ne.
Qed.

Lemma map_fst_zip {A B} (l : list A) (k : list B) :
  length l <= length k -> map fst (zip l k) = l.
Proof.
  revert k. induction l as [|a l IH]; intros [|b k] Hlen; simpl in *;
    [done | done | lia |].
  rewrite IH; [done | lia].
Qed.

Lemma dict_lookup_zip_None k (names : list string) (rs : list value) :
  k ∉ names -> dict_lookup k (zip names rs) = None.
Proof.
  revert rs. induction names as [|n names IH]; intros [|r rs] Hk; simpl; try done.
  apply not_elem_of_cons in Hk as [Hne Hk].
  apply String.eqb_neq in Hne. rewrite Hne. by apply IH.
Qed.

Lemma dict_lookup_zip_is_Some k (names : list string) (rs : list value) :
  k ∈ names -> length rs = length names -> is_Some (dict_lookup k (zip names rs)).
Proof.
  revert rs. induction names as [|n names IH]; intros [|r rs] Hk Hlen;
    simpl in *; try done.
  - by apply elem_of_nil in Hk.
  - destruct (String.eqb k n) eqn:E; [by eexists|].
    apply String.eqb_neq in E. apply elem_of_cons in Hk as [?|Hk]; [done|].
    apply IH; [done | lia].
Qed.

(** A call of [configure] that returns has run all its commands; what it
    returns is the redacted copy of what they stored. *)
Lemma configure_returns ip ssid wifi_pass mqtt_host mqtt_port
    mqtt_user mqtt_pass topic web_user web_pass (s s' : Sys W) result :
  configure ip ssid wifi_pass mqtt_host mqtt_port
    mqtt_user mqtt_pass topic web_user web_pass s = (Returns result, s') ->
  let cmds := commands ssid wifi_pass mqtt_host mqtt_port mqtt_user mqtt_pass topic in
  let reqs := map (fun kc => command_request ip kc.2 web_user web_pass) cmds in
  exists responses,
    configure_commands ip ssid wifi_pass mqtt_host mqtt_port
      mqtt_user mqtt_pass topic web_user web_pass (configure_frame s)
      = (Returns tt, {| cf_sys := s'; res := zip (map fst cmds) responses |}) /\
    answers reqs (ext s) = (map Returns responses, ext s') /\
    length responses = length cmds /\
    sent s' = sent s ++ reqs /\
    result = redacted (zip (map fst cmds) responses).
Proof.
  unfold configure, configure_body. unfold mbind at 1, M_bind.
  destruct (configure_commands _ _ _ _ _ _ _ _ _ _ _) as [[[]|e] f1] eqn:Hcmds;
    [|discriminate].
  rewrite configure_redact_run. intros [= <- <-].
  set (cmds := commands ssid wifi_pass mqtt_host mqtt_port mqtt_user mqtt_pass topic).
  pose proof Hcmds as Hrun. rewrite configure_commands_store_all in Hrun.
  fold cmds in Hrun.
  apply store_all_returns in Hrun as (responses & Hans & Hlen & Hsent & Hres).
  cbn [cf_sys res ext sent configure_frame] in *. exists responses.
  assert (res f1 = zip (map fst cmds) responses) as Hstored.
  { rewrite Hres, dict_store_fresh; [done | | done].
    rewrite map_fst_zip by (rewrite length_map; lia).
    apply commands_names_NoDup. }
  rewrite <- Hstored. by destruct f1.
Qed.

(** C6: when every command call succeeds, the requests sent are those of the
    commands SSID1, Password1, MqttHost, MqttPort, then MqttUser,
    MqttPassword and Topic when provided, then TelePeriod, in this order;
    each answer is stored under the name of its command; the dict returned
    is the stored one with the entries of the two password commands
    redacted. *)
Theorem configure_sends_commands_in_order ip ssid wifi_pass mqtt_host mqtt_port
    mqtt_user mqtt_pass topic web_user web_pass (s s' : Sys W) result :
  configure ip ssid wifi_pass mqtt_host mqtt_port
    mqtt_user mqtt_pass topic web_user web_pass s = (Returns result, s') ->
  let cmds := commands ssid wifi_pass mqtt_host mqtt_port mqtt_user mqtt_pass topic in
  let reqs := map (fun kc => command_request ip kc.2 web_user web_pass) cmds in
  sent s' = sent s ++ reqs /\
  exists responses stored,
    answers reqs (ext s) = (map Returns responses, ext s') /\
    length responses = length cmds /\
    (configure_commands ip ssid wifi_pass mqtt_host mqtt_port
       mqtt_user mqtt_pass topic web_user web_pass (configure_frame s)).2
      = {| cf_sys := s'; res := stored |} /\
    stored = zip (map fst cmds) responses /\
    (forall k, dict_lookup k result =
       if secret_key k then (fun _ => VStr "***") <$> dict_lookup k stored
       else dict_lookup k stored).
Proof.
  intros Hrun cmds reqs.
  apply configure_returns in Hrun as (responses & Hcmds & Hans & Hlen & Hsent & ->).
  split; [exact Hsent|]. exists responses, (zip (map fst cmds) responses).
  split; [exact Hans|]. split; [exact Hlen|]. split; [by rewrite Hcmds|].
  split; [reflexivity|]. intros k. apply dict_lookup_redacted.
  apply (not_eq_None_Some (dict_lookup "Password1" _)).
  apply dict_lookup_zip_is_Some; [|by rewrite length_map].
  subst cmds. unfold commands. simpl. by apply (bool_decide_unpack _).
Qed.

(** C2, as amended: in the dict a call of [configure] returns, the entry of
    the wifi-password command is the redaction marker, and the entry of the
    broker-password command is the redaction marker when that command was
    issued and is missing otherwise. *)
Theorem configure_redacts_on_return ip ssid wifi_pass mqtt_host mqtt_port
    mqtt_user mqtt_pass topic web_user web_pass (s s' : Sys W) result :
  configure ip ssid wifi_pass mqtt_host mqtt_port
    mqtt_user mqtt_pass topic web_user web_pass s = (Returns result, s') ->
  dict_lookup "Password1" result = Some (VStr "***") /\
  dict_lookup "MqttPassword" result =
    (if truthy mqtt_pass then Some (VStr "***") else None).
Proof.
  intros Hrun.
  apply configure_returns in Hrun as (responses & _ & _ & Hlen & _ & ->).
  set (names := map fst (commands ssid wifi_pass mqtt_host mqtt_port
                           mqtt_user mqtt_pass topic)) in *.
  assert (length responses = length names) as Hlen'.
  { subst names. by rewrite length_map. }
  assert (is_Some (dict_lookup "Password1" (zip names responses))) as Hp.
  { apply dict_lookup_zip_is_Some; [|done].
    subst names. unfold commands. simpl. by apply (bool_decide_unpack _). }
  rewrite !dict_lookup_redacted by by apply not_eq_None_Some.
  change (secret_key "Password1") with true.
  change (secret_key "MqttPassword") with true. cbv iota. split.
  - by destruct Hp as [v ->].
  - destruct (truthy mqtt_pass) eqn:Hmp.
    + assert (is_Some (dict_lookup "MqttPassword" (zip names responses))) as [v ->];
        [|done].
      apply dict_lookup_zip_is_Some; [|done].
      subst names. unfold commands. rewrite Hmp.
      destruct (truthy mqtt_user); simpl; by apply (bool_decide_unpack _).
    + rewrite dict_lookup_zip_None; [done|].
      subst names. unfold commands. rewrite Hmp.
      destruct (truthy mqtt_user), (truthy topic); simpl;
        by apply (bool_decide_unpack _).
Qed.

End ConfigureFacts.

Example configure_example :
  (configure "10.0.0.9" "home" "hunter2" "broker.lan" 1883
     (Some "mqtt") (Some "s3cret") None None None (start (device None))).1
  = Returns [ ("SSID1", VDict [("SSID1", VStr "home")]);
              ("Password1", VStr "***");
              ("MqttHost", VDict [("MqttHost", VStr "broker.lan")]);
              ("MqttPort", VDict [("MqttPort", VStr "1883")]);
              ("MqttUser", VDict [("MqttUser", VStr "mqtt")]);
              ("MqttPassword", VStr "***");
              ("TelePeriod", VDict [("TelePeriod", VStr "10")]) ].
Proof. reflexivity. Qed.

(** C6, at a configuration with a broker user and password and no topic. *)
Lemma configure_sends_commands_in_order_witness :
  let s := start (device None) in
  exists result s',
    configure "10.0.0.9" "home" "hunter2" "broker.lan" 1883
      (Some "mqtt") (Some "s3cret") None None None s = (Returns result, s') /\
    map (fun req => dict_lookup "cmnd" (params req)) (sent s') =
      map (fun c => Some (VStr c))
        [ "SSID1 home"; "Password1 hunter2"; "MqttHost broker.lan"; "MqttPort 1883";
          "MqttUser mqtt"; "MqttPassword s3cret"; "TelePeriod 10" ].
Proof.
  intros s.
  destruct (configure "10.0.0.9" "home" "hunter2" "broker.lan" 1883
              (Some "mqtt") (Some "s3cret") None None None s)
    as [[result|e] s'] eqn:Hrun; [|by vm_compute in Hrun].
  exists result, s'. split; [reflexivity|].
  rewrite (proj1 (configure_sends_commands_in_order
                    "10.0.0.9" "home" "hunter2" "broker.lan" 1883
                    (Some "mqtt") (Some "s3cret") None None None s s' result Hrun)).
  reflexivity.
Defined.

(** C2 as amended, at the same configuration. *)
Lemma configure_redacts_on_return_witness :
  let s := start (device None) in
  exists result s',
    configure "10.0.0.9" "home" "hunter2" "broker.lan" 1883
      (Some "mqtt") (Some "s3cret") None None None s = (Returns result, s') /\
    dict_lookup "Password1" result = Some (VStr "***") /\
    dict_lookup "MqttPassword" result = Some (VStr "***").
Proof.
  intros s.
  destruct (configure "10.0.0.9" "home" "hunter2" "broker.lan" 1883
              (Some "mqtt") (Some "s3cret") None None None s)
    as [[result|e] s'] eqn:Hrun; [|by vm_compute in Hrun].
  exists result, s'. split; [reflexivity|].
  apply (configure_redacts_on_return
           "10.0.0.9" "home" "hunter2" "broker.lan" 1883
           (Some "mqtt") (Some "s3cret") None None None s s' result Hrun).
Defined.

(** C2 as stated fails when a later command raises: the device times out on
    MqttHost, [configure] raises, the redaction is not reached, and the dict
    it was building still holds the answer to the wifi-password command,
    which carries the password. *)
Lemma configure_unredacted_when_raising :
  let s := start (device (Some "MqttHost")) in
  let run := configure_body "10.0.0.9" "home" "hunter2" "broker.lan" 1883
               None None None None None (configure_frame s) in
  (configure "10.0.0.9" "home" "hunter2" "broker.lan" 1883
     None None None None None s).1 = Raises (RequestException "read timed out") /\
  run.1 = Raises (RequestException "read timed out") /\
  dict_lookup "Password1" (res run.2) = Some (VDict [("Password1", VStr "hunter2")]) /\
  dict_lookup "Password1" (res run.2) <> Some (VStr "***").
Proof. repeat split. discriminate. Qed.

(** ** Telemetry *)

Section TelemetryFacts.
Context `{Builtins} {W : Type} `{World W}.

Local Ltac run_handler :=
  unfold on_message, after_message, message_time, listening, zoom, world_call,
    try_except, lift_outcome, results_append, modify, mbind, M_bind, mret, M_ret;
  simpl.

(** X13: a message that does not parse is recorded as invalid, with the text
    of the parse error and no payload. *)
Lemma on_message_unparsable raw e (f : @ListenFrame W) :
  json_loads raw = Raises e ->
  on_message raw f =
    (Returns tt,
     after_message f
       [{| ValidationRecord.ts := message_time f;
           ValidationRecord.valid := false;
           ValidationRecord.errors := [exn_str e];
           ValidationRecord.payload := None |}]).
Proof.
  intros Hraw. run_handler.
  destruct (utcnow_isoformat _) as [ts w']. simpl. by rewrite Hraw.
Qed.

(** X14: a message that parses and on which the validator returns is
    recorded with its payload and the errors; it is valid exactly when there
    are no errors. *)
Lemma on_message_validated raw payload errs (f : @ListenFrame W) :
  json_loads raw = Returns payload ->
  validate_payload payload = Returns errs ->
  on_message raw f =
    (Returns tt,
     after_message f
       [{| ValidationRecord.ts := message_time f;
           ValidationRecord.valid := bool_decide (errs = []);
           ValidationRecord.errors := errs;
           ValidationRecord.payload := Some payload |}]).
Proof.
  intros Hraw Hval. run_handler.
  destruct (utcnow_isoformat _) as [ts w']. simpl. rewrite Hraw. simpl.
  rewrite Hval. simpl. by destruct errs.
Qed.

(** A message that parses and on which the validator raises is not recorded:
    the handler raises and [results] is as it was. *)
Lemma on_message_validator_raises raw payload e (f : @ListenFrame W) :
  json_loads raw = Returns payload ->
  validate_payload payload = Raises e ->
  on_message raw f = (Raises e, after_message f []).
Proof.
  intros Hraw Hval. run_handler.
  destruct (utcnow_isoformat _) as [ts w']. simpl. rewrite Hraw. simpl.
  rewrite Hval. simpl. by rewrite app_nil_r.
Qed.

Lemma sub_topic_of_topic (topic : string) :
  sub_topic_of (Some topic) = "tele/" +:+ topic +:+ "/SENSOR".
Proof. reflexivity. Qed.

End TelemetryFacts.

(** C8 does not hold of the code at the message [{"CustomSensor": 5}]: it
    parses, the validator raises AttributeError, and the handler raises
    without appending a record. *)
Theorem on_message_drops_non_object_section :
  let f := {| lf_sys := start (broker [text_section_number]);
              results := []; subscriptions := ["tele/kitchen/SENSOR"] |} in
  let run := @on_message sample_builtins _ _ text_section_number f in
  @json_loads sample_builtins text_section_number
    = Returns (VDict [("CustomSensor", VInt 5)]) /\
  run.1 = Raises (AttributeError "'int' object has no attribute 'get'") /\
  results run.2 = [].
Proof. repeat split. Qed.

Example on_message_drops_bare_number :
  let f := {| lf_sys := start (broker ["5"]);
              results := []; subscriptions := ["tele/kitchen/SENSOR"] |} in
  let run := @on_message sample_builtins _ _ "5" f in
  run.1 = Raises (AttributeError "'int' object has no attribute 'get'") /\
  results run.2 = [].
Proof. repeat split. Qed.

Example subscribe_and_validate_scenario :
  let run := @subscribe_and_validate sample_builtins _ _
               "broker.lan" 1883 (Some "kitchen") 30%float None None
               (start (broker ["not json"; text_no_pressure; text_complete])) in
  option_map (map (fun r => (ValidationRecord.valid r, ValidationRecord.errors r)))
    (returned run.1)
  = Some [ (false, ["Expecting value: line 1 column 1 (char 0)"]);
           (false, ["Missing 'Pressure'"]);
           (true, []) ].
Proof. reflexivity. Qed.

Example subscribe_and_validate_stops_recording :
  let run := @subscribe_and_validate sample_builtins _ _
               "broker.lan" 1883 (Some "kitchen") 30%float None None
               (start (broker [text_section_number; text_complete])) in
  returned run.1 = Some [].
Proof. reflexivity. Qed.

(** * Further properties of the code *)

(** ** Payload schema validation, beyond the section checks *)

Section ValidationEdges.
Context `{Builtins}.

Local Ltac required_key := by apply (bool_decide_unpack _).

(** X1: a payload that is not a dict has no [get]: the call raises
    AttributeError, naming the payload's type. *)
Theorem validate_payload_not_dict (payload : value) :
  is_dict payload = false ->
  validate_payload payload =
    Raises (AttributeError
              ("'" +:+ type_name payload +:+ "' object has no attribute 'get'")).
Proof. intros Hp. by destruct payload. Qed.

(** X2: a "CustomSensor" entry holding None is treated as a missing key: the
    one missing-section error, and no look at the fields. *)
Theorem validate_payload_null_section (d : dict) :
  dict_lookup "CustomSensor" d = Some VNone ->
  validate_payload (VDict d) = Returns ["Missing 'CustomSensor' key"].
Proof. intros Hd. unfold validate_payload. simpl. by rewrite Hd. Qed.

(** The errors of a section, field by field. *)
Lemma validate_payload_section_errors (d cs : dict) :
  dict_lookup "CustomSensor" d = Some (VDict cs) ->
  exists eT eH eP,
    validate_payload (VDict d) = Returns (eT ++ eH ++ eP) /\
    (field_errors cs "Temperature" eT /\ (eT = [] <-> field_ok cs "Temperature")) /\
    (field_errors cs "Humidity" eH /\ (eH = [] <-> field_ok cs "Humidity")) /\
    (field_errors cs "Pressure" eP /\ (eP = [] <-> field_ok cs "Pressure")).
Proof.
  intros Hcs. rewrite (validate_payload_on_section _ _ Hcs).
  destruct (check_key_section cs [] "Temperature") as (eT & HT & HfT & HoT).
  destruct (check_key_section cs eT "Humidity") as (eH & HH & HfH & HoH).
  destruct (check_key_section cs (eT ++ eH) "Pressure") as (eP & HP & HfP & HoP).
  exists eT, eH, eP. split; [|done].
  unfold REQUIRED_KEYS. simpl in *. unfold mbind, outcome_bind.
  rewrite HT. simpl. rewrite HH. simpl. rewrite HP. simpl.
  by rewrite <- app_assoc.
Qed.

Lemma field_errors_length (cs : dict) k e :
  field_errors cs k e -> length e <= 1.
Proof. destruct 1; simpl; lia. Qed.

(** X3: once the section is a dict the call returns, with at most one error
    per required field, hence at most three. *)
Theorem validate_payload_at_most_three (d cs : dict) :
  dict_lookup "CustomSensor" d = Some (VDict cs) ->
  exists errs, validate_payload (VDict d) = Returns errs /\ length errs <= 3.
Proof.
  intros Hcs.
  destruct (validate_payload_section_errors d cs Hcs)
    as (eT & eH & eP & Hv & [HT _] & [HH _] & [HP _]).
  eexists. split; [exact Hv|].
  apply field_errors_length in HT, HH, HP. rewrite !length_app. lia.
Qed.

Lemma check_key_agree (cs cs' : dict) errors k :
  dict_lookup k cs = dict_lookup k cs' ->
  check_key (VDict cs) errors k = check_key (VDict cs') errors k.
Proof. intros Hk. unfold check_key. simpl. by rewrite Hk. Qed.

(** X4: only the three required fields of the section count.  Two payloads
    whose sections agree on Temperature, Humidity and Pressure get the same
    result, whatever else the payloads or the sections hold. *)
Theorem validate_payload_ignores_other_keys (d d' cs cs' : dict) :
  dict_lookup "CustomSensor" d = Some (VDict cs) ->
  dict_lookup "CustomSensor" d' = Some (VDict cs') ->
  (forall k, k ∈ REQUIRED_KEYS -> dict_lookup k cs = dict_lookup k cs') ->
  validate_payload (VDict d) = validate_payload (VDict d').
Proof.
  intros Hd Hd' Hagree.
  rewrite (validate_payload_on_section _ _ Hd), (validate_payload_on_section _ _ Hd').
  unfold REQUIRED_KEYS in *. simpl. unfold mbind, outcome_bind.
  rewrite (check_key_agree cs cs' [] "Temperature") by (apply Hagree; required_key).
  destruct (check_key (VDict cs') [] "Temperature") as [e1|]; simpl; [|done].
  rewrite (check_key_agree cs cs' e1 "Humidity") by (apply Hagree; required_key).
  destruct (check_key (VDict cs') e1 "Humidity") as [e2|]; simpl; [|done].
  rewrite (check_key_agree cs cs' e2 "Pressure") by (apply Hagree; required_key).
  done.
Qed.

(** X5: when exactly one required field has a wrong type and the other two
    pass the type check, the result is the one error naming that field and
    showing its value. *)
Theorem validate_payload_one_wrong_type (d cs : dict) (k : string) (v : value) :
  dict_lookup "CustomSensor" d = Some (VDict cs) ->
  k ∈ REQUIRED_KEYS ->
  dict_lookup k cs = Some v -> v <> VNone -> isinstance_int_float v = false ->
  (forall k', k' ∈ REQUIRED_KEYS -> k' <> k -> field_ok cs k') ->
  validate_payload (VDict d) = Returns ["'" +:+ k +:+ "' not numeric: " +:+ repr v].
Proof.
  intros Hcs Hk Hv Hnone Hty Hothers.
  destruct (validate_payload_section_errors d cs Hcs)
    as (eT & eH & eP & -> & [HT HoT] & [HH HoH] & [HP HoP]).
  assert (forall k' e, field_errors cs k' e -> k' = k ->
            e = ["'" +:+ k +:+ "' not numeric: " +:+ repr v]) as Hbad.
  { intros k' e He ->. destruct He as [Hl|Hl|v' Hl ? ?|v' Hl Hn]; try congruence. }
  unfold REQUIRED_KEYS in *.
  repeat (apply elem_of_cons in Hk as [->|Hk]); [| | | by apply elem_of_nil in Hk].
  - rewrite (Hbad _ _ HT eq_refl).
    rewrite (proj2 HoH), (proj2 HoP); [done | |];
      apply Hothers; [required_key | done | required_key | done].
  - rewrite (Hbad _ _ HH eq_refl).
    rewrite (proj2 HoT), (proj2 HoP); [done | |];
      apply Hothers; [required_key | done | required_key | done].
  - rewrite (Hbad _ _ HP eq_refl).
    rewrite (proj2 HoT), (proj2 HoH); [done | |];
      apply Hothers; [required_key | done | required_key | done].
Qed.

End ValidationEdges.

(** X1, at a payload that is a list. *)
Lemma validate_payload_not_dict_witness :
  @validate_payload sample_builtins (VList [VInt 1]) =
    Raises (AttributeError "'list' object has no attribute 'get'").
Proof. apply (@validate_payload_not_dict sample_builtins (VList [VInt 1])). reflexivity. Defined.

(** X2, at the payload [{"CustomSensor": null, "Time": "12:00"}]. *)
Lemma validate_payload_null_section_witness :
  @validate_payload sample_builtins
    (VDict [("CustomSensor", VNone); ("Time", VStr "12:00")])
  = Returns ["Missing 'CustomSensor' key"].
Proof.
  apply (@validate_payload_null_section sample_builtins
           [("CustomSensor", VNone); ("Time", VStr "12:00")]). reflexivity.
Defined.

(** X3, at an empty section. *)
Lemma validate_payload_at_most_three_witness :
  exists errs,
    @validate_payload sample_builtins (VDict [("CustomSensor", VDict [])])
      = Returns errs /\ length errs <= 3.
Proof.
  apply (@validate_payload_at_most_three sample_builtins
           [("CustomSensor", VDict [])] []). reflexivity.
Defined.

(** X4, at two payloads that differ in a time stamp and an extra reading. *)
Lemma validate_payload_ignores_other_keys_witness :
  let cs := [("Temperature", VInt 21); ("Humidity", VStr "wet")] in
  let cs' := [("Humidity", VStr "wet"); ("Lux", VInt 3); ("Temperature", VInt 21)] in
  @validate_payload sample_builtins (VDict [("CustomSensor", VDict cs)]) =
  @validate_payload sample_builtins
    (VDict [("Time", VStr "12:00"); ("CustomSensor", VDict cs')]).
Proof.
  intros cs cs'.
  apply (@validate_payload_ignores_other_keys sample_builtins _ _ cs cs');
    [reflexivity | reflexivity |].
  intros k Hk. unfold REQUIRED_KEYS in Hk.
  repeat (apply elem_of_cons in Hk as [->|Hk]); try reflexivity.
  by apply elem_of_nil in Hk.
Defined.

(** X5, at a section whose Humidity is a string. *)
Lemma validate_payload_one_wrong_type_witness :
  @validate_payload sample_builtins
    (VDict [("CustomSensor",
             VDict [("Temperature", VInt 21); ("Humidity", VStr "wet");
                    ("Pressure", VInt 1013)])])
  = Returns ["'Humidity' not numeric: 'wet'"].
Proof.
  apply (@validate_payload_one_wrong_type sample_builtins _
           [("Temperature", VInt 21); ("Humidity", VStr "wet"); ("Pressure", VInt 1013)]
           "Humidity" (VStr "wet"));
    [reflexivity | by apply (bool_decide_unpack _) | reflexivity | discriminate
    | reflexivity |].
  intros k' Hk' Hne. unfold REQUIRED_KEYS in Hk'.
  repeat (apply elem_of_cons in Hk' as [->|Hk']);
    [eexists; split; reflexivity | done | eexists; split; reflexivity
    | by apply elem_of_nil in Hk'].
Defined.

(** ** The listener and the scan *)

Lemma add_addresses_elem (addresses : list (list Byte.byte)) :
  forall (ips : gset string) ip,
  ip ∈ fold_left
         (fun ips addr =>
            if (length addr =? 4)%nat then ips ∪ {[ inet_ntoa addr ]} else ips)
         addresses ips
  <-> ip ∈ ips \/ exists addr, addr ∈ addresses /\ length addr = 4 /\ ip = inet_ntoa addr.
Proof.
  induction addresses as [|a addresses IH]; intros ips ip; simpl.
  - split; [by left|]. intros [?|(addr & Hin & _)]; [done|].
    by apply elem_of_nil in Hin.
  - rewrite IH. destruct (length a =? 4)%nat eqn:Hlen.
    + apply Nat.eqb_eq in Hlen. rewrite elem_of_union, elem_of_singleton. split.
      * intros [[?| ->]|(addr & Hin & ? & ?)]; [by left | |].
        -- right. exists a. split; [by left|done].
        -- right. exists addr. split; [by right|done].
      * intros [?|(addr & Hin & Hl & ->)]; [by left; left|].
        apply elem_of_cons in Hin as [->|Hin]; [by left; right|].
        right. by exists addr.
    + apply Nat.eqb_neq in Hlen. split.
      * intros [?|(addr & Hin & ? & ?)]; [by left|].
        right. exists addr. split; [by right|done].
      * intros [?|(addr & Hin & Hl & ->)]; [by left|].
        apply elem_of_cons in Hin as [->|Hin]; [done|].
        right. by exists addr.
Qed.

Lemma add_service_elem (ips : gset string) info ip :
  ip ∈ add_service ips info <->
  ip ∈ ips \/
  exists addresses addr,
    info = Some addresses /\ addr ∈ addresses /\ length addr = 4 /\ ip = inet_ntoa addr.
Proof.
  destruct info as [addresses|]; simpl.
  - rewrite add_addresses_elem. split.
    + intros [?|(addr & ? & ? & ?)]; [by left|]. right. by exists addresses, addr.
    + intros [?|(addresses' & addr & [= <-] & ? & ? & ?)]; [by left|].
      right. by exists addr.
  - split; [by left|]. by intros [?|(? & ? & ? & _)].
Qed.

(** X6: after any sequence of call-backs, the listener's set holds exactly the
    dotted-decimal texts of the four-byte addresses of the services that
    resolved; services that did not resolve and addresses of any other
    length leave no trace. *)
Theorem listener_collects_ipv4 (found : list (option (list (list Byte.byte)))) ip :
  ip ∈ fold_left add_service found (∅ : gset string) <->
  exists addresses addr,
    Some addresses ∈ found /\ addr ∈ addresses /\ length addr = 4 /\
    ip = inet_ntoa addr.
Proof.
  assert (forall ips : gset string,
            ip ∈ fold_left add_service found ips <->
            ip ∈ ips \/
            exists addresses addr,
              Some addresses ∈ found /\ addr ∈ addresses /\ length addr = 4 /\
              ip = inet_ntoa addr) as Hgen.
  { induction found as [|info found IH]; intros ips; simpl.
    - split; [by left|]. intros [?|(? & ? & Hin & _)]; [done|].
      by apply elem_of_nil in Hin.
    - rewrite IH, add_service_elem. split.
      + intros [[?|(addresses & addr & -> & ? & ? & ?)]|(addresses & addr & ? & ?)].
        * by left.
        * right. exists addresses, addr. split; [by left|done].
        * right. exists addresses, addr. split; [by right|done].
      + intros [?|(addresses & addr & Hin & ? & ? & ?)]; [by left; left|].
        apply elem_of_cons in Hin as [<-|Hin].
        * left. right. by exists addresses, addr.
        * right. by exists addresses, addr. }
  rewrite Hgen. split; [|by right]. intros [Hin|?]; [|done].
  by apply elem_of_empty in Hin.
Qed.

Lemma octet_dotless (b : Byte.byte) : dotless (pretty (Byte.to_N b)) = true.
Proof. destruct b; vm_compute; reflexivity. Qed.

Lemma octet_text_inj (b b' : Byte.byte) :
  pretty (Byte.to_N b) = pretty (Byte.to_N b') -> b = b'.
Proof.
  intros Heq%(inj pretty).
  assert (Byte.of_N (Byte.to_N b) = Byte.of_N (Byte.to_N b')) as Hof by congruence.
  rewrite !Byte.of_to_N in Hof. congruence.
Qed.

(** Texts without dots, each followed by a dot, split in one way only. *)
Lemma split_at_dot (s1 : string) :
  forall s2 r1 r2,
  dotless s1 = true -> dotless s2 = true ->
  s1 +:+ "." +:+ r1 = s2 +:+ "." +:+ r2 -> s1 = s2 /\ r1 = r2.
Proof.
  induction s1 as [|a s1 IH]; intros [|a' s2] r1 r2 H1 H2 Heq; simpl in *.
  - by injection Heq.
  - injection Heq as <- _. discriminate.
  - injection Heq as -> _. discriminate.
  - injection Heq as <- Heq.
    apply andb_true_iff in H1 as [_ H1]. apply andb_true_iff in H2 as [_ H2].
    destruct (IH _ _ _ H1 H2 Heq) as [-> ->]. done.
Qed.

(** X7: two four-byte addresses with the same dotted-decimal text are the
    same address, so the listener's set has one entry per address seen. *)
Theorem inet_ntoa_inj (addr addr' : list Byte.byte) :
  length addr = 4 -> length addr' = 4 ->
  inet_ntoa addr = inet_ntoa addr' -> addr = addr'.
Proof.
  intros Hl Hl' Heq.
  destruct addr as [|a [|b [|c [|d [|]]]]]; try discriminate Hl.
  destruct addr' as [|a' [|b' [|c' [|d' [|]]]]]; try discriminate Hl'.
  unfold inet_ntoa in Heq. simpl in Heq.
  apply split_at_dot in Heq as [Ha Heq]; try apply octet_dotless.
  apply split_at_dot in Heq as [Hb Heq]; try apply octet_dotless.
  apply split_at_dot in Heq as [Hc Hd]; try apply octet_dotless.
  apply octet_text_inj in Ha, Hb, Hc, Hd. by subst.
Qed.

(** X7, at the address 10.0.0.9. *)
Lemma inet_ntoa_inj_witness :
  [Byte.x0a; Byte.x00; Byte.x00; Byte.x09] = [Byte.x0a; Byte.x00; Byte.x00; Byte.x09].
Proof.
  apply (inet_ntoa_inj [Byte.x0a; Byte.x00; Byte.x00; Byte.x09]
           [Byte.x0a; Byte.x00; Byte.x00; Byte.x09]); reflexivity.
Defined.

Section DiscoveryEdges.
Context {W : Type} `{World W}.



End DiscoveryEdges.


(** ** Requests and configuration, beyond the successful run *)

(** X10: a request carries the WebUI credentials only when both the user and
    the password are set; with one of them missing or empty, neither is
    sent. *)
Theorem http_request_credentials ip path (query : dict) seconds web_user web_pass :
  dict_lookup "user" query = None ->
  dict_lookup "password" query = None ->
  let req := http_request ip path query seconds web_user web_pass in
  url req = "http://" +:+ ip +:+ path /\
  params req = query ++ credentials web_user web_pass /\
  (truthy web_user = false \/ truthy web_pass = false -> params req = query).
Proof.
  intros Hu Hp. unfold http_request, credentials. simpl.
  split; [reflexivity|]. split.
  - destruct (truthy web_user && truthy web_pass); [|by rewrite app_nil_r].
    rewrite (dict_set_fresh "user") by done.
    rewrite (dict_set_fresh "password").
    + by rewrite <- app_assoc.
    + rewrite dict_lookup_app, Hp. reflexivity.
  - intros [-> | ->]; [done|]. by rewrite andb_false_r.
Qed.

(** X10, at a probe with a user name and no password. *)
Lemma http_request_credentials_witness :
  params (status_request "10.0.0.9" (Some "admin") None)
    = [("cmnd", VStr "Status 0")].
Proof.
  apply (http_request_credentials "10.0.0.9" "/cm" [("cmnd", VStr "Status 0")] 2
           (Some "admin") None eq_refl eq_refl).
  by right.
Defined.

Local Arguments String.eqb : simpl never.

Lemma map_replace_absent k v (d : dict) :
  k ∉ map fst d ->
  map (fun kv => if String.eqb k kv.1 then (kv.1, v) else kv) d = d.
Proof.
  induction d as [|[k' v'] d IH]; simpl; [done|]. intros Hk.
  apply not_elem_of_cons in Hk as [Hne Hk].
  apply String.eqb_neq in Hne. rewrite Hne. f_equal. by apply IH.
Qed.

Lemma dict_set_present k v (d : dict) :
  NoDup (map fst d) -> k ∈ map fst d ->
  dict_set k v d = map (fun kv => if String.eqb k kv.1 then (kv.1, v) else kv) d.
Proof.
  induction d as [|[k' v'] d IH]; simpl; intros Hnd Hk.
  - by apply elem_of_nil in Hk.
  - apply NoDup_cons in Hnd as [Hk' Hnd].
    destruct (String.eqb k k') eqn:E.
    + apply String.eqb_eq in E. subst k'. f_equal.
      by rewrite map_replace_absent.
    + f_equal. apply IH; [done|].
      apply elem_of_cons in Hk as [->|Hk]; [|done].
      by rewrite String.eqb_refl in E.
Qed.

Lemma dict_lookup_None_keys k (d : dict) :
  dict_lookup k d = None <-> k ∉ map fst d.
Proof.
  induction d as [|[k' v'] d IH]; simpl.
  - split; [intros _; apply not_elem_of_nil | done].
  - rewrite not_elem_of_cons. destruct (String.eqb k k') eqn:E.
    + apply String.eqb_eq in E. split; [done | by intros [? _]].
    + apply String.eqb_neq in E. rewrite IH. tauto.
Qed.

(** With distinct keys and a wifi-password entry, redaction is masking every
    secret-bearing entry where it stands. *)
Lemma redacted_masked (d : dict) :
  NoDup (map fst d) -> "Password1" ∈ map fst d ->
  redacted d = map masked d.
Proof.
  intros Hnd Hp. unfold redacted.
  assert (map fst (dict_set "Password1" (VStr "***") d) = map fst d) as Hkeys.
  { rewrite dict_set_present by done. rewrite map_map. apply map_ext.
    intros [k v]. simpl. by destruct (String.eqb "Password1" k). }
  unfold dict_has.
  destruct (dict_lookup "MqttPassword" (dict_set "Password1" (VStr "***") d))
    as [raw|] eqn:Hm.
  - assert ("MqttPassword" ∈ map fst d) as Hin.
    { rewrite <- Hkeys. destruct (decide ("MqttPassword" ∈
        map fst (dict_set "Password1" (VStr "***") d))) as [?|Hn]; [done|].
      apply dict_lookup_None_keys in Hn. congruence. }
    rewrite (dict_set_present "MqttPassword") by (by rewrite Hkeys).
    rewrite dict_set_present by done. rewrite map_map. apply map_ext.
    intros [k v]. unfold masked, secret_key. simpl.
    rewrite (String.eqb_sym k "Password1"), (String.eqb_sym k "MqttPassword").
    destruct (String.eqb "Password1" k) eqn:E1; simpl.
    + apply String.eqb_eq in E1. subst k. reflexivity.
    + by destruct (String.eqb "MqttPassword" k).
  - apply dict_lookup_None_keys in Hm. rewrite Hkeys in Hm.
    rewrite dict_set_present by done. apply map_ext_in.
    intros [k v] Hkv. unfold masked, secret_key. simpl.
    rewrite (String.eqb_sym k "Password1"), (String.eqb_sym k "MqttPassword").
    destruct (String.eqb "Password1" k) eqn:E1; simpl; [done|].
    destruct (String.eqb "MqttPassword" k) eqn:E2; [|done].
    apply String.eqb_eq in E2. subst k. exfalso. apply Hm.
    apply list_elem_of_In. apply in_map_iff. by exists ("MqttPassword", v).
Qed.

Section ConfigureEdges.
Context {W : Type} `{World W}.

(** When every answer returns, [store_all] returns, having sent every
    command and stored every answer. *)
Lemma store_all_answered ip web_user web_pass (cmds : list (string * string)) :
  forall (f : @ConfigureFrame W) responses w',
  answers (map (fun kc => command_request ip kc.2 web_user web_pass) cmds)
    (ext (cf_sys f)) = (map Returns responses, w') ->
  store_all ip web_user web_pass cmds f =
    (Returns tt,
     {| cf_sys := {| ext := w';
                     sent := sent (cf_sys f) ++
                       map (fun kc => command_request ip kc.2 web_user web_pass) cmds |};
        res := fold_left (fun d kv => dict_set kv.1 kv.2 d)
                 (zip (map fst cmds) responses) (res f) |}).
Proof.
  induction cmds as [|[k c] cmds IH]; intros f responses w' Hans.
  - simpl in *. injection Hans as Hr <-. destruct responses; [|discriminate].
    destruct f as [[w snt] r]. simpl. by rewrite app_nil_r.
  - rewrite store_all_cons, res_store_run. simpl in Hans |- *.
    destruct (requests_get _ _) as [o w1]. simpl.
    destruct (answers _ w1) as [os w2] eqn:Hrest.
    injection Hans as Ho <-. destruct responses as [|r responses]; [discriminate|].
    injection Ho as -> ->. simpl.
    erewrite IH by exact Hrest. simpl. by rewrite <- app_assoc.
Qed.

(** When the answers return up to a command that raises, [store_all] raises
    that exception; the commands after it are not sent. *)
Lemma store_all_interrupted ip web_user web_pass (pre : list (string * string)) :
  forall (f : @ConfigureFrame W) kc post responses w1 e w2,
  answers (map (fun kc => command_request ip kc.2 web_user web_pass) pre)
    (ext (cf_sys f)) = (map Returns responses, w1) ->
  requests_get (command_request ip kc.2 web_user web_pass) w1 = (Raises e, w2) ->
  store_all ip web_user web_pass (pre ++ kc :: post) f =
    (Raises e,
     {| cf_sys := {| ext := w2;
                     sent := sent (cf_sys f) ++
                       map (fun kc => command_request ip kc.2 web_user web_pass)
                         (pre ++ [kc]) |};
        res := fold_left (fun d kv => dict_set kv.1 kv.2 d)
                 (zip (map fst pre) responses) (res f) |}).
Proof.
  induction pre as [|[k c] pre IH]; intros f [k' c'] post responses w1 e w2 Hans Hfail.
  - simpl in Hans. injection Hans as Hr <-. destruct responses; [|discriminate].
    rewrite app_nil_l, store_all_cons, res_store_run. simpl in *. by rewrite Hfail.
  - rewrite <- app_comm_cons, store_all_cons, res_store_run. simpl in Hans |- *.
    destruct (requests_get _ _) as [o w0]. simpl.
    destruct (answers _ w0) as [os w3] eqn:Hrest.
    injection Hans as Ho <-. destruct responses as [|r responses]; [discriminate|].
    injection Ho as -> ->. simpl.
    erewrite IH by eassumption. simpl. by rewrite <- app_assoc.
Qed.

Lemma answers_length (reqs : list Request) :
  forall (w w' : W) os, answers reqs w = (os, w') -> length os = length reqs.
Proof.
  induction reqs as [|r reqs IH]; intros w w' os Hans; simpl in *.
  - by injection Hans as <- _.
  - destruct (requests_get r w) as [o w1].
    destruct (answers reqs w1) as [os' w2] eqn:Hrest.
    injection Hans as <- _. simpl. f_equal. eauto.
Qed.

(** X11: when the device answers every command, [configure] returns: the
    requests sent are those of the commands in order, and the dict returned
    lists the commands in the order issued, each with its answer, except
    that the two password commands hold the redaction marker. *)
Theorem configure_answered ip ssid wifi_pass mqtt_host mqtt_port
    mqtt_user mqtt_pass topic web_user web_pass (s : Sys W) responses w' :
  let cmds := commands ssid wifi_pass mqtt_host mqtt_port mqtt_user mqtt_pass topic in
  let reqs := map (fun kc => command_request ip kc.2 web_user web_pass) cmds in
  answers reqs (ext s) = (map Returns responses, w') ->
  configure ip ssid wifi_pass mqtt_host mqtt_port
    mqtt_user mqtt_pass topic web_user web_pass s =
  (Returns (map masked (zip (map fst cmds) responses)),
   {| ext := w'; sent := sent s ++ reqs |}).
Proof.
  intros cmds reqs Hans.
  assert (length responses = length cmds) as Hlen.
  { apply answers_length in Hans. subst reqs.
    by rewrite !length_map in Hans. }
  assert (map fst (zip (map fst cmds) responses) = map fst cmds) as Hkeys.
  { apply map_fst_zip. rewrite length_map. lia. }
  unfold configure, configure_body. unfold mbind at 1, M_bind.
  rewrite configure_commands_store_all. fold cmds. cbn [configure_frame cf_sys].
  rewrite (store_all_answered ip web_user web_pass cmds
             {| cf_sys := s; res := [] |} responses w' Hans).
  rewrite configure_redact_run. cbn [cf_sys res ext sent configure_frame].
  rewrite dict_store_fresh; [| rewrite Hkeys; apply commands_names_NoDup | done].
  rewrite app_nil_l, redacted_masked; [done | |].
  - rewrite Hkeys. apply commands_names_NoDup.
  - rewrite Hkeys. subst cmds. unfold commands. simpl.
    by apply (bool_decide_unpack _).
Qed.

(** X12: a command that fails ends the configuration.  When the device
    answers the commands before it and the call for it raises, [configure]
    raises the same exception; the requests sent stop at the failed
    command, and no later command goes out. *)
Theorem configure_stops_at_failure ip ssid wifi_pass mqtt_host mqtt_port
    mqtt_user mqtt_pass topic web_user web_pass (s : Sys W)
    pre kc post responses w1 e w2 :
  commands ssid wifi_pass mqtt_host mqtt_port mqtt_user mqtt_pass topic
    = pre ++ kc :: post ->
  answers (map (fun kc => command_request ip kc.2 web_user web_pass) pre) (ext s)
    = (map Returns responses, w1) ->
  requests_get (command_request ip kc.2 web_user web_pass) w1 = (Raises e, w2) ->
  configure ip ssid wifi_pass mqtt_host mqtt_port
    mqtt_user mqtt_pass topic web_user web_pass s =
  (Raises e,
   {| ext := w2;
      sent := sent s ++
        map (fun kc => command_request ip kc.2 web_user web_pass) (pre ++ [kc]) |}).
Proof.
  intros Hsplit Hans Hfail.
  unfold configure, configure_body. unfold mbind at 1, M_bind.
  rewrite configure_commands_store_all, Hsplit. cbn [configure_frame cf_sys].
  by rewrite (store_all_interrupted ip web_user web_pass pre
                {| cf_sys := s; res := [] |} kc post responses w1 e w2 Hans Hfail).
Qed.

End ConfigureEdges.

(** X11, at a configuration with a broker user and password and no topic. *)
Lemma configure_answered_witness :
  configure "10.0.0.9" "home" "hunter2" "broker.lan" 1883
    (Some "mqtt") (Some "s3cret") None None None (start (device None)) =
  (Returns [ ("SSID1", VDict [("SSID1", VStr "home")]);
             ("Password1", VStr "***");
             ("MqttHost", VDict [("MqttHost", VStr "broker.lan")]);
             ("MqttPort", VDict [("MqttPort", VStr "1883")]);
             ("MqttUser", VDict [("MqttUser", VStr "mqtt")]);
             ("MqttPassword", VStr "***");
             ("TelePeriod", VDict [("TelePeriod", VStr "10")]) ],
   {| ext := device None;
      sent := map (fun c => command_request "10.0.0.9" c None None)
                [ "SSID1 home"; "Password1 hunter2"; "MqttHost broker.lan";
                  "MqttPort 1883"; "MqttUser mqtt"; "MqttPassword s3cret";
                  "TelePeriod 10" ] |}).
Proof.
  exact (configure_answered "10.0.0.9" "home" "hunter2" "broker.lan" 1883
           (Some "mqtt") (Some "s3cret") None None None (start (device None))
           [ VDict [("SSID1", VStr "home")]; VDict [("Password1", VStr "hunter2")];
             VDict [("MqttHost", VStr "broker.lan")]; VDict [("MqttPort", VStr "1883")];
             VDict [("MqttUser", VStr "mqtt")]; VDict [("MqttPassword", VStr "s3cret")];
             VDict [("TelePeriod", VStr "10")] ]
           (device None) eq_refl).
Defined.

(** X12, at a device that times out on the broker host. *)
Lemma configure_stops_at_failure_witness :
  configure "10.0.0.9" "home" "hunter2" "broker.lan" 1883
    None None None None None (start (device (Some "MqttHost"))) =
  (Raises (RequestException "read timed out"),
   {| ext := device (Some "MqttHost");
      sent := map (fun c => command_request "10.0.0.9" c None None)
                [ "SSID1 home"; "Password1 hunter2"; "MqttHost broker.lan" ] |}).
Proof.
  exact (configure_stops_at_failure "10.0.0.9" "home" "hunter2" "broker.lan" 1883
           None None None None None (start (device (Some "MqttHost")))
           [("SSID1", "SSID1 home"); ("Password1", "Password1 hunter2")]
           ("MqttHost", "MqttHost broker.lan")
           [("MqttPort", "MqttPort 1883"); ("TelePeriod", "TelePeriod 10")]
           [VDict [("SSID1", VStr "home")]; VDict [("Password1", VStr "hunter2")]]
           (device (Some "MqttHost")) (RequestException "read timed out")
           (device (Some "MqttHost")) eq_refl eq_refl eq_refl).
Defined.

(** ** Telemetry, message by message and as a stream *)

Section TelemetryEdges.
Context `{Builtins} {W : Type} `{World W}.

(** What the handler does with a message, case by case. *)
Lemma on_message_run raw (f : @ListenFrame W) :
  on_message raw f =
    match record_of (message_time f) raw with
    | Some r => (Returns tt, after_message f [r])
    | None =>
        match json_loads raw with
        | Returns payload =>
            match validate_payload payload with
            | Raises e => (Raises e, after_message f [])
            | Returns _ => (Returns tt, after_message f [])
            end
        | Raises _ => (Returns tt, after_message f [])
        end
    end.
Proof.
  unfold record_of, on_message, after_message, message_time, listening, zoom,
    world_call, try_except, lift_outcome, results_append, modify, mbind, M_bind,
    mret, M_ret.
  simpl. destruct (utcnow_isoformat _) as [ts w']. simpl.
  destruct (json_loads raw) as [payload|e]; simpl; [|done].
  destruct (validate_payload payload) as [errs|e]; simpl.
  - by destruct errs.
  - by rewrite app_nil_r.
Qed.

(** X15: whatever the message, the handler leaves the records already taken
    as they are and appends at most one; it sends no request and does not
    touch the subscriptions. *)
Theorem on_message_appends_at_most_one raw (f : @ListenFrame W) :
  exists o f' rs,
    on_message raw f = (o, f') /\
    results f' = results f ++ rs /\ length rs <= 1 /\
    subscriptions f' = subscriptions f /\
    sent (lf_sys f') = sent (lf_sys f).
Proof.
  rewrite on_message_run.
  destruct (record_of _ raw) as [r|].
  - exists (Returns tt), (after_message f [r]), [r]. simpl. repeat split; lia.
  - destruct (json_loads raw) as [payload|e];
      [destruct (validate_payload payload) as [errs|e]|];
      eexists _, (after_message f []), []; simpl; repeat split; lia.
Qed.

(** The delivery of messages that are all handled: one record each, in
    arrival order. *)
Lemma deliver_handled (msgs : list string) :
  forall f : @ListenFrame W,
  Forall handled msgs ->
  exists f' records,
    for_each (fun _ raw => on_message raw) msgs tt f = (Returns tt, f') /\
    results f' = results f ++ records /\
    Forall2 (fun raw r => exists ts, record_of ts raw = Some r) msgs records /\
    sent (lf_sys f') = sent (lf_sys f).
Proof.
  induction msgs as [|raw msgs IH]; intros f Hall.
  - exists f, []. simpl. rewrite app_nil_r. repeat split. constructor.
  - apply Forall_cons in Hall as [Hraw Hall].
    assert (exists r, record_of (message_time f) raw = Some r) as [r Hr].
    { unfold handled in Hraw. unfold record_of.
      destruct (json_loads raw) as [payload|e]; [|eauto].
      destruct Hraw as [errs ->]. eauto. }
    destruct (IH (after_message f [r]) Hall) as (f' & records & Hrun & Hres & Hrecs & Hsent).
    exists f', (r :: records). split; [|split; [|split]].
    + rewrite for_each_cons, on_message_run, Hr. exact Hrun.
    + rewrite Hres. simpl. by rewrite <- app_assoc.
    + constructor; [eauto | exact Hrecs].
    + rewrite Hsent. reflexivity.
Qed.

(** [subscribe_and_validate], step by step. *)
Lemma subscribe_and_validate_run mqtt_host mqtt_port topic duration
    mqtt_user mqtt_pass (s : Sys W) :
  subscribe_and_validate mqtt_host mqtt_port topic duration mqtt_user mqtt_pass s =
    match mqtt_connect mqtt_host mqtt_port
            (if truthy mqtt_user then mqtt_user else None)
            (if truthy mqtt_user then mqtt_pass else None) (ext s) with
    | (Raises e, w1) => (Raises e, {| ext := w1; sent := sent s |})
    | (Returns rc, w1) =>
        let subs := if (rc =? 0)%Z then ["tele/" +:+ fmt topic +:+ "/SENSOR"] else [] in
        let delivery := mqtt_deliver subs duration w1 in
        let f1 := {| lf_sys := {| ext := delivery.2; sent := sent s |};
                     results := []; subscriptions := subs |} in
        let f2 := (for_each (fun _ raw => on_message raw) delivery.1 tt f1).2 in
        (Returns (results f2), lf_sys f2)
    end.
Proof.
  unfold subscribe_and_validate, subscribe_and_validate_body, listening, zoom,
    world_try, world_call, on_connect, when, sub_topic_of, gets, modify, try_except.
  destruct (truthy mqtt_user); unfold mbind, M_bind;
    cbn -[for_each on_message String.append];
    destruct (mqtt_connect _ _ _ _ _) as [[rc|e] w1];
    cbn -[for_each on_message String.append]; try reflexivity;
    destruct (rc =? 0)%Z; cbn -[for_each on_message String.append];
    destruct (mqtt_deliver _ duration w1) as [ms w2];
    cbn -[for_each on_message String.append];
    match goal with
    | |- context [@for_each ?F ?B ?R ?S ?A ?body ms tt ?f] =>
        by destruct (@for_each F B R S A body ms tt f) as [[[]|e] f2]
    end.
Qed.

(** X16: a connection that fails ends [subscribe_and_validate] with the
    exception of [connect]; there is no handler for it and no record is
    returned. *)
Theorem subscribe_and_validate_connect_fails mqtt_host mqtt_port topic duration
    mqtt_user mqtt_pass (s : Sys W) e w1 :
  mqtt_connect mqtt_host mqtt_port
    (if truthy mqtt_user then mqtt_user else None)
    (if truthy mqtt_user then mqtt_pass else None) (ext s) = (Raises e, w1) ->
  subscribe_and_validate mqtt_host mqtt_port topic duration mqtt_user mqtt_pass s
    = (Raises e, {| ext := w1; sent := sent s |}).
Proof. intros Hconn. by rewrite subscribe_and_validate_run, Hconn. Qed.


End TelemetryEdges.

(** X13, at a message that is no JSON. *)
Lemma on_message_unparsable_witness :
  let f := kitchen_frame (broker ["not json"]) in
  @on_message sample_builtins _ _ "not json" f =
    (Returns tt,
     after_message f
       [{| ValidationRecord.ts := "t0";
           ValidationRecord.valid := false;
           ValidationRecord.errors := ["Expecting value: line 1 column 1 (char 0)"];
           ValidationRecord.payload := None |}]).
Proof.
  intros f.
  exact (@on_message_unparsable sample_builtins _ _ "not json"
           (JSONDecodeError "Expecting value: line 1 column 1 (char 0)") f eq_refl).
Defined.

(** X14, at a message without the pressure. *)
Lemma on_message_validated_witness :
  let f := kitchen_frame (broker [text_no_pressure]) in
  let payload :=
    VDict [("CustomSensor", VDict [("Temperature", VInt 21); ("Humidity", VInt 40)])] in
  @on_message sample_builtins _ _ text_no_pressure f =
    (Returns tt,
     after_message f
       [{| ValidationRecord.ts := "t0";
           ValidationRecord.valid := false;
           ValidationRecord.errors := ["Missing 'Pressure'"];
           ValidationRecord.payload := Some payload |}]).
Proof.
  intros f payload.
  exact (@on_message_validated sample_builtins _ _ text_no_pressure payload
           ["Missing 'Pressure'"] f eq_refl eq_refl).
Defined.

(** X16, at a broker that refuses the connection. *)
Lemma subscribe_and_validate_connect_fails_witness :
  @subscribe_and_validate sample_builtins _ _
    "broker.lan" 1883 (Some "kitchen") 30%float None None (start broker_down)
  = (Raises (OSError "[Errno 111] Connection refused"), start broker_down).
Proof.
  exact (@subscribe_and_validate_connect_fails sample_builtins _ _
           "broker.lan" 1883 (Some "kitchen") 30%float None None (start broker_down)
           (OSError "[Errno 111] Connection refused") broker_down eq_refl).
Defined.


(** ** The report, in terms of the records *)

Lemma filter_length_all {A} (p : A -> bool) (l : list A) :
  length (List.filter p l) = length l <-> Forall (fun a => p a = true) l.
Proof.
  induction l as [|a l IH]; simpl.
  - split; [constructor | done].
  - pose proof (List.filter_length_le p l) as Hle.
    destruct (p a) eqn:Hp; simpl.
    + rewrite Forall_cons. split.
      * intros [= Hl]. split; [done | by apply IH].
      * intros [_ Hl]. f_equal. by apply IH.
    + split; [lia|]. intros [Hpa _]%Forall_cons. congruence.
Qed.

Lemma filter_length_split {A} (p : A -> bool) (l : list A) :
  length (List.filter p l) + length (List.filter (fun a => negb (p a)) l) = length l.
Proof.
  induction l as [|a l IH]; simpl; [done|]. destruct (p a); simpl; lia.
Qed.

Section ReportEdges.
Context {W : Type} `{World W}.

(** X18: a report passes exactly when there is at least one record and every
    record is valid. *)
Theorem generate_report_pass_all_valid devices config_res validation path
    (s s' : Sys W) report :
  generate_report devices config_res validation path s = (Returns report, s') ->
  Summary.pass (Report.summary report) = true <->
  validation <> [] /\
  Forall (fun r => ValidationRecord.valid r = true) validation.
Proof.
  intros Hrun. apply generate_report_returns in Hrun as [Hsm _]. rewrite Hsm. simpl.
  rewrite andb_true_iff, Z.ltb_lt, Z.eqb_eq, <- filter_length_all.
  unfold len. pose proof (List.filter_length_le ValidationRecord.valid validation).
  destruct validation as [|r validation]; simpl in *; [split; [lia | by intros [? _]]|].
  split.
  - intros [_ Heq]. split; [done | lia].
  - intros [_ Heq]. rewrite Heq. simpl. lia.
Qed.

(** X19: in the summary, [valid] counts the records whose flag is set,
    [invalid] the records whose flag is not set, [messages_received] all the
    records and [devices_found] the devices. *)
Theorem generate_report_counts devices config_res validation path
    (s s' : Sys W) report :
  generate_report devices config_res validation path s = (Returns report, s') ->
  let sm := Report.summary report in
  Summary.valid sm = len (List.filter ValidationRecord.valid validation) /\
  Summary.invalid sm =
    len (List.filter (fun r => negb (ValidationRecord.valid r)) validation) /\
  Summary.messages_received sm = len validation /\
  Summary.devices_found sm = len devices.
Proof.
  intros Hrun. apply generate_report_returns in Hrun as [Hsm _]. simpl.
  rewrite Hsm. simpl. repeat split.
  pose proof (filter_length_split ValidationRecord.valid validation).
  unfold len. lia.
Qed.

(** X20: [generate_report] reads the clock, writes the report to [path] once,
    and then returns the report it wrote, which carries the devices, the
    configuration result and the records as given; when the write raises,
    the call raises that exception. *)
Theorem generate_report_writes_then_returns devices config_res validation path
    (s : Sys W) :
  let now := utcnow_isoformat (ext s) in
  exists report,
    Report.generated_at report = now.1 /\
    Report.devices report = devices /\
    Report.configuration report = config_res /\
    Report.validation report = validation /\
    generate_report devices config_res validation path s =
      (match (json_dump_to path report now.2).1 with
       | Returns _ => Returns report
       | Raises e => Raises e
       end,
       {| ext := (json_dump_to path report now.2).2; sent := sent s |}).
Proof.
  intros now. unfold generate_report, world_call, world_try.
  unfold mbind, M_bind, mret, M_ret. subst now.
  destruct (utcnow_isoformat (ext s)) as [t w1]. simpl.
  eexists. split; [|split; [|split; [|split]]]; cycle 4.
  - destruct (json_dump_to path _ w1) as [[[]|e] w2] eqn:Hw; simpl;
      rewrite Hw; reflexivity.
  - reflexivity.
  - reflexivity.
  - reflexivity.
  - reflexivity.
Qed.

End ReportEdges.

(** X18, at three records of which one is valid. *)
Lemma generate_report_pass_all_valid_witness :
  exists report s',
    generate_report [] [] three_records "report.json" (start quiet_world)
      = (Returns report, s') /\
    (Summary.pass (Report.summary report) = true <->
     three_records <> [] /\
     Forall (fun r => ValidationRecord.valid r = true) three_records).
Proof.
  eexists _, _. split; [vm_compute; reflexivity|].
  eapply (generate_report_pass_all_valid [] [] three_records "report.json"
            (start quiet_world)).
  vm_compute. reflexivity.
Defined.

(** X19, at the same records. *)
Lemma generate_report_counts_witness :
  exists report s',
    generate_report [] [] three_records "report.json" (start quiet_world)
      = (Returns report, s') /\
    Summary.valid (Report.summary report) = 1%Z /\
    Summary.invalid (Report.summary report) = 2%Z /\
    Summary.messages_received (Report.summary report) = 3%Z /\
    Summary.devices_found (Report.summary report) = 0%Z.
Proof.
  eexists _, _. split; [vm_compute; reflexivity|].
  eapply (generate_report_counts [] [] three_records "report.json"
            (start quiet_world)).
  vm_compute. reflexivity.
Defined.

(** ** Waiting for the device *)

Section WaitFacts.
Context {W : Type} `{World W} `{Clock W}.

(** One turn of the loop of [wait_for_device]. *)
Lemma wait_loop_step fuel ip deadline web_user web_pass (s : Sys W) :
  wait_loop (S fuel) ip deadline web_user web_pass s =
    let t := time_time (ext s) in
    if PrimFloat.ltb t.1 deadline then
      match probe_tasmota ip web_user web_pass {| ext := t.2; sent := sent s |} with
      | (Returns (Some _), s1) => (Returns (Some true), s1)
      | (Returns None, s1) =>
          wait_loop fuel ip deadline web_user web_pass
            {| ext := time_sleep 1%float (ext s1); sent := sent s1 |}
      | (Raises e, s1) => (Raises e, s1)
      end
    else (Returns (Some false), {| ext := t.2; sent := sent s |}).
Proof.
  cbn [wait_loop]. unfold world_call, mbind, M_bind.
  destruct (time_time (ext s)) as [t w1]. cbn [fst snd].
  destruct (PrimFloat.ltb t deadline); [|reflexivity].
  destruct (probe_tasmota _ _ _ _) as [[[d|]|e] s1]; reflexivity.
Qed.

Lemma probe_tasmota_returns ip web_user web_pass (s : Sys W) :
  exists dev w1,
    probe_tasmota ip web_user web_pass s =
      (Returns dev, {| ext := w1; sent := sent s ++ [status_request ip web_user web_pass] |}).
Proof. eexists _, _. apply probe_tasmota_run. Qed.

(** The loop never raises, and every request it sends is the status query to
    the address waited for. *)
Lemma wait_loop_probes_only ip deadline web_user web_pass (fuel : nat) :
  forall s : Sys W,
  exists r s' n,
    wait_loop fuel ip deadline web_user web_pass s = (Returns r, s') /\
    sent s' = sent s ++ repeat (status_request ip web_user web_pass) n /\
    n <= fuel /\
    (r = Some true -> 1 <= n) /\
    (r = None -> n = fuel).
Proof.
  induction fuel as [|fuel IH]; intros s.
  - exists None, s, 0. simpl. rewrite app_nil_r. repeat split; done.
  - rewrite wait_loop_step. cbv zeta.
    destruct (PrimFloat.ltb _ deadline).
    + destruct (probe_tasmota_returns ip web_user web_pass
                  {| ext := (time_time (ext s)).2; sent := sent s |})
        as (dev & w1 & Hprobe).
      rewrite Hprobe. cbn [ext sent] in *. destruct dev as [d|].
      * eexists (Some true), _, 1. split; [reflexivity|].
        simpl. repeat split; try lia. done.
      * match goal with
        | |- context [wait_loop fuel _ _ _ _ ?s1] =>
            destruct (IH s1) as (r & s' & n & Hrun & Hsent & Hn & Htrue & Hnone)
        end.
        exists r, s', (S n). split; [exact Hrun|]. simpl in *.
        rewrite Hsent, <- app_assoc. simpl.
        repeat split; [lia | intros ?; lia | intros ?; f_equal; auto].
    + eexists (Some false), _, 0. split; [reflexivity|]. simpl.
      rewrite app_nil_r. repeat split; [lia | done | done].
Qed.

(** X21: [wait_for_device] never raises, whatever the device and the network
    do.  Every request it sends is the status query to the address waited
    for, at most one per turn of its loop, and it answers True only after
    at least one such query. *)
Theorem wait_for_device_probes_only fuel ip timeout web_user web_pass (s : Sys W) :
  exists r s' n,
    wait_for_device fuel ip timeout web_user web_pass s = (Returns r, s') /\
    sent s' = sent s ++ repeat (status_request ip web_user web_pass) n /\
    n <= fuel /\
    (r = Some true -> 1 <= n).
Proof.
  unfold wait_for_device, world_call, mbind, M_bind.
  destruct (time_time (ext s)) as [now w1].
  destruct (wait_loop_probes_only ip (PrimFloat.add now timeout) web_user web_pass fuel
              {| ext := w1; sent := sent s |})
    as (r & s' & n & Hrun & Hsent & Hn & Htrue & _).
  exists r, s', n. by rewrite Hrun.
Qed.

(** X22: when the deadline is not ahead of the clock at the first check (a
    timeout of zero, say), [wait_for_device] returns False at once: no
    probe, no sleep. *)
Theorem wait_for_device_expired fuel ip timeout web_user web_pass (s : Sys W) :
  let now := time_time (ext s) in
  let t := time_time now.2 in
  PrimFloat.ltb t.1 (PrimFloat.add now.1 timeout) = false ->
  wait_for_device (S fuel) ip timeout web_user web_pass s =
    (Returns (Some false), {| ext := t.2; sent := sent s |}).
Proof.
  intros now t Hlate. subst now t.
  unfold wait_for_device, world_call. unfold mbind at 1, M_bind.
  destruct (time_time (ext s)) as [now w1]. cbn [fst snd] in *.
  rewrite wait_loop_step. cbv zeta. cbn [ext sent]. by rewrite Hlate.
Qed.

(** X23: when the deadline is ahead and the device answers the first probe
    with a well-formed status, [wait_for_device] returns True after that one
    probe, without sleeping. *)
Theorem wait_for_device_first_probe fuel ip timeout web_user web_pass (s : Sys W)
    v net st :
  let now := time_time (ext s) in
  let t := time_time now.2 in
  let answer := requests_get (status_request ip web_user web_pass) t.2 in
  PrimFloat.ltb t.1 (PrimFloat.add now.1 timeout) = true ->
  answer.1 = Returns v ->
  status_sections v = Some (net, st) ->
  wait_for_device (S fuel) ip timeout web_user web_pass s =
    (Returns (Some true),
     {| ext := answer.2; sent := sent s ++ [status_request ip web_user web_pass] |}).
Proof.
  intros now t answer Hearly Hv Hsec. subst now t answer.
  unfold wait_for_device, world_call. unfold mbind at 1, M_bind.
  destruct (time_time (ext s)) as [now w1]. cbn [fst snd] in *.
  rewrite wait_loop_step. cbv zeta. cbn [ext sent]. rewrite Hearly.
  rewrite probe_tasmota_run. cbv zeta. cbn [ext sent]. by rewrite Hv, Hsec.
Qed.

End WaitFacts.

(** X22, with a timeout of zero. *)
Lemma wait_for_device_expired_witness :
  wait_for_device 1 "10.0.0.9" 0%float None None (start (device None)) =
    (Returns (Some false), start (device None)).
Proof.
  exact (wait_for_device_expired 0 "10.0.0.9" 0%float None None
           (start (device None)) eq_refl).
Defined.

(** X23, with the default timeout and a device that is back at once. *)
Lemma wait_for_device_first_probe_witness :
  let w := lan [] ["http://10.0.0.9/cm"] in
  wait_for_device 1 "10.0.0.9" 30%float None None (start w) =
    (Returns (Some true),
     {| ext := w; sent := [status_request "10.0.0.9" None None] |}).
Proof.
  intros w.
  exact (wait_for_device_first_probe 0 "10.0.0.9" 30%float None None (start w)
           (status_answer "tasmota" "kitchen")
           [("Hostname", VStr "tasmota")] [("Topic", VStr "kitchen")]
           eq_refl eq_refl eq_refl).
Defined.

(** ** The command line *)

Section MainFacts.
Context `{Builtins} {W : Type} `{World W} `{Clock W}.

(** The first step of [main] never raises and sends status queries only. *)
Lemma find_devices_probes_only (args : Args.t) (s : Sys W) :
  exists devices s1 ips,
    find_devices args s = (Returns devices, s1) /\
    sent s1 = sent s ++
      map (fun ip => status_request ip (Args.web_user args) (Args.web_pass args)) ips.
Proof.
  unfold find_devices. destruct (truthy (Args.device_ip args)).
  - destruct (probe_tasmota_returns (fmt (Args.device_ip args))
                (Args.web_user args) (Args.web_pass args) s) as (dev & w1 & Hprobe).
    unfold mbind, M_bind. rewrite Hprobe.
    eexists _, _, [_]. split; reflexivity.
  - unfold discover, world_call, mbind, M_bind.
    destruct (zeroconf_browse _ (ext s)) as [found w1].
    destruct (probe_candidates_run (fold_left add_service found ∅)
                (Args.web_user args) (Args.web_pass args)
                {| ext := w1; sent := sent s |})
      as (outcomes & s' & _ & Hloop & Hsent & _).
    rewrite Hloop. eexists _, _, _. split; [reflexivity | exact Hsent].
Qed.

(** X24: [main] stops after the search when no device was found, or when
    neither the command line nor the first device gives a topic.  Up to
    then it has sent status queries only: no configuration command goes
    out, nothing is listened to and no report is written. *)
Theorem main_stops_without_target fuel (args : Args.t) (s s1 : Sys W) devices :
  find_devices args s = (Returns devices, s1) ->
  (devices = [] \/
   exists first rest, devices = first :: rest /\
     value_truthy (resolve_topic (Args.mqtt_topic args) first) = false) ->
  main fuel args s = (Returns (Some tt), s1) /\
  exists ips,
    sent s1 = sent s ++
      map (fun ip => status_request ip (Args.web_user args) (Args.web_pass args)) ips.
Proof.
  intros Hfind Hnone. split.
  - unfold main, mbind, M_bind. rewrite Hfind.
    destruct Hnone as [->|(first & rest & -> & Htopic)]; [done|].
    by rewrite Htopic.
  - destruct (find_devices_probes_only args s) as (devices' & s1' & ips & Hfind' & Hsent).
    rewrite Hfind in Hfind'. injection Hfind' as <- <-. by exists ips.
Qed.

(** X25: a configuration command that fails ends [main] with its exception,
    in the state [configure] left: there is no wait for the device, no
    listening and no report. *)
Theorem main_stops_when_configure_raises fuel (args : Args.t) (s s1 s2 : Sys W)
    first rest e :
  find_devices args s = (Returns (first :: rest), s1) ->
  let topic := resolve_topic (Args.mqtt_topic args) first in
  value_truthy topic = true ->
  configure (Device.ip first) (Args.ssid args) (Args.wifi_pass args)
    (Args.mqtt_host args) (Args.mqtt_port args)
    (Some (Args.mqtt_user args)) (Some (Args.mqtt_pass args))
    (Some (py_str topic)) (Args.web_user args) (Args.web_pass args) s1
    = (Raises e, s2) ->
  main fuel args s = (Raises e, s2).
Proof.
  intros Hfind topic Htopic Hcfg.
  unfold main. unfold mbind at 1, M_bind. rewrite Hfind. fold topic. rewrite Htopic.
  cbn [negb]. unfold provision. unfold mbind at 1, M_bind. by rewrite Hcfg.
Qed.

End MainFacts.

(** X24, at a device whose status names no topic, with no topic on the
    command line. *)
Lemma main_stops_without_target_witness :
  let s := start (provisioned_device None None) in
  @main sample_builtins _ _ _ 5 sample_args s =
    (Returns (Some tt),
     {| ext := provisioned_device None None;
        sent := [status_request "10.0.0.9" None None] |}).
Proof.
  intros s.
  refine (proj1 (@main_stops_without_target sample_builtins _ _ _ 5 sample_args s _
                   [{| Device.ip := "10.0.0.9"; Device.hostname := VStr "tasmota";
                       Device.topic := VNone |}] eq_refl _)).
  right. eexists _, _. split; reflexivity.
Defined.

(** X25, at a device that times out on the broker host. *)
Lemma main_stops_when_configure_raises_witness :
  let s := start (provisioned_device (Some "kitchen") (Some "MqttHost")) in
  @main sample_builtins _ _ _ 5 sample_args s =
    (Raises (RequestException "read timed out"),
     {| ext := provisioned_device (Some "kitchen") (Some "MqttHost");
        sent := status_request "10.0.0.9" None None ::
                map (fun c => command_request "10.0.0.9" c None None)
                  ["SSID1 home"; "Password1 hunter2"; "MqttHost broker.lan"] |}).
Proof.
  intros s.
  exact (@main_stops_when_configure_raises sample_builtins _ _ _ 5 sample_args s _ _
           {| Device.ip := "10.0.0.9"; Device.hostname := VStr "tasmota";
              Device.topic := VStr "kitchen" |} [] _ eq_refl eq_refl eq_refl).
Defined.

(** A whole run: the device named on the command line answers, is
    configured, is back at the first probe, publishes one complete reading,
    and the report written passes. *)
Example main_end_to_end :
  let w := {| server := server (provisioned_device (Some "kitchen") None);
              services := []; clock := 0; written := [];
              broker_rc := Returns 0%Z; inbox := [text_complete] |} in
  let run := @main sample_builtins _ _ _ 5 sample_args (start w) in
  run.1 = Returns (Some tt) /\
  map (fun pr => (pr.1, Report.summary pr.2)) (written (ext run.2)) =
    [ ("report.json",
       {| Summary.devices_found := 1; Summary.messages_received := 1;
          Summary.valid := 1; Summary.invalid := 0; Summary.pass := true |}) ] /\
  map (fun req => dict_lookup "cmnd" (params req)) (sent run.2) =
    map (fun c => Some (VStr c))
      [ "Status 0"; "SSID1 home"; "Password1 hunter2"; "MqttHost broker.lan";
        "MqttPort 1883"; "Topic kitchen"; "TelePeriod 10"; "Status 0" ].
Proof. vm_compute. repeat split. Qed.
